(** * MacPins clipboard-history engine: a shallow embedding

    The main process keeps one module-level array [clipboardHistory], a JSON
    file [clipboard-history.json] and an image directory
    [clipboard-images/].  Every handler of [src/main/index.ts] (and of its
    split-out copies [clipboardManager] / [ipcManager]) is modelled as a
    function on an explicit [World] that holds all of this state. *)

From Stdlib Require Import String Ascii List Bool ZArith NArith Lia.
From Stdlib Require Import Sorting.Sorted Permutation QArith Qround Lqa.
Import ListNotations.
Open Scope string_scope.
Open Scope list_scope.
Open Scope Z_scope.

(** ** Data model ([ClipboardItem], clearClipboardHistory.ts) *)

Inductive kind := text | image.

Definition kind_eqb (a b : kind) : bool :=
  match a, b with text, text | image, image => true | _, _ => false end.

(** [pinned?: boolean] and [preview?], [imagePath?] are optional fields:
    [None] is [undefined]. *)
Record ClipboardItem := mkItem {
  id : string;
  type : kind;
  content : string;
  timestamp : Z;
  preview : option string;
  pinned : option bool;
  imagePath : option string
}.

(** [item.pinned === true] *)
Definition is_pinned (x : ClipboardItem) : bool :=
  match pinned x with Some true => true | _ => false end.

(** [Boolean(item.pinned)], also the truth value tested by [!item.pinned] *)
Definition Boolean (p : option bool) : bool :=
  match p with Some b => b | None => false end.

Definition set_pinned (p : option bool) (x : ClipboardItem) : ClipboardItem :=
  mkItem (id x) (type x) (content x) (timestamp x) (preview x) p (imagePath x).

(** [item.pinned = item.pinned === true] *)
Definition coerce (x : ClipboardItem) : ClipboardItem :=
  set_pinned (Some (is_pinned x)) x.

(** ** Array helpers with the JavaScript semantics *)

(** [arr.findIndex(p)]; [None] is [-1]. *)
Fixpoint findIndex {A} (p : A -> bool) (l : list A) : option nat :=
  match l with
  | [] => None
  | x :: t => if p x then Some O else option_map S (findIndex p t)
  end.

(** [arr.splice(k, 1)] *)
Fixpoint remove_at {A} (k : nat) (l : list A) : list A :=
  match l, k with
  | [], _ => []
  | _ :: t, O => t
  | x :: t, S k' => x :: remove_at k' t
  end.

(** [arr[k] = f(arr[k])] for an index in range *)
Fixpoint update_at {A} (k : nat) (f : A -> A) (l : list A) : list A :=
  match l, k with
  | [], _ => []
  | x :: t, O => f x :: t
  | x :: t, S k' => x :: update_at k' f t
  end.

(** ** [sort((a, b) => b.timestamp - a.timestamp)]

    [Array.prototype.sort] is stable, so its result is the stable sort by
    descending timestamp; insertion sort computes exactly that list. *)
Fixpoint insert_desc (a : ClipboardItem) (l : list ClipboardItem) : list ClipboardItem :=
  match l with
  | [] => [a]
  | b :: t => if timestamp b <=? timestamp a then a :: l else b :: insert_desc a t
  end.

Fixpoint sort_desc (l : list ClipboardItem) : list ClipboardItem :=
  match l with
  | [] => []
  | a :: t => insert_desc a (sort_desc t)
  end.

(** The re-ordering done by [loadClipboardHistory] and [toggle-pinned]:
    [pinnedItems] (those with [pinned === true]) then [unpinnedItems], each
    sorted by descending timestamp. *)
Definition pin_sort (l : list ClipboardItem) : list ClipboardItem :=
  sort_desc (filter is_pinned l) ++ sort_desc (filter (fun x => negb (is_pinned x)) l).

(** ** Conversion of [Date.now()] to its decimal [toString()] *)
Fixpoint digits (fuel : nat) (n : N) (acc : string) : string :=
  match fuel with
  | O => acc
  | S f =>
      let acc' := String (ascii_of_N (48 + N.modulo n 10)) acc in
      if N.eqb (N.div n 10) 0 then acc' else digits f (N.div n 10) acc'
  end.

Definition toString (z : Z) : string :=
  match z with
  | Zneg p => String "-" (digits (S (Pos.size_nat p)) (Npos p) EmptyString)
  | Z0 => "0"
  | Zpos p => digits (S (Pos.size_nat p)) (Npos p) EmptyString
  end.

(** ** The state of the main process *)

(** What [clipboard.write*] last put on the OS clipboard. *)
Inductive ClipPayload := PNone | PText (s : string) | PImage (b : list Byte.byte).

(** Observable side effects towards the renderer and the history file. *)
Inductive Event :=
  | Notified (h : list ClipboardItem)   (* [webContents.send('clipboard-updated', h)] *)
  | Saved (h : list ClipboardItem).     (* [fs.writeFileSync(historyFilePath, ...)] *)

Record World := mkWorld {
  clipboardHistory : list ClipboardItem;
  (** the parsed content of [clipboard-history.json]; [None]: no file.
      [JSON.parse(JSON.stringify(h))] gives back [h] for these records
      (strings, a number, booleans; absent optional fields stay absent). *)
  historyFile : option (list ClipboardItem);
  (** [clipboard-images/]: file name and bytes *)
  images : list (string * list Byte.byte);
  lastClipboardContent : string;
  osClipboard : ClipPayload;
  events : list Event   (* newest first *)
}.

Definition with_history (h : list ClipboardItem) (w : World) : World :=
  mkWorld h (historyFile w) (images w) (lastClipboardContent w) (osClipboard w) (events w).
Definition with_file (f : option (list ClipboardItem)) (w : World) : World :=
  mkWorld (clipboardHistory w) f (images w) (lastClipboardContent w) (osClipboard w) (events w).
Definition with_images (i : list (string * list Byte.byte)) (w : World) : World :=
  mkWorld (clipboardHistory w) (historyFile w) i (lastClipboardContent w) (osClipboard w) (events w).
Definition with_last (s : string) (w : World) : World :=
  mkWorld (clipboardHistory w) (historyFile w) (images w) s (osClipboard w) (events w).
Definition with_os (c : ClipPayload) (w : World) : World :=
  mkWorld (clipboardHistory w) (historyFile w) (images w) (lastClipboardContent w) c (events w).
Definition emit (e : Event) (w : World) : World :=
  mkWorld (clipboardHistory w) (historyFile w) (images w) (lastClipboardContent w) (osClipboard w) (e :: events w).

Definition file_exists (f : string) (w : World) : bool :=
  existsb (fun p => String.eqb (fst p) f) (images w).

Definition unlink (f : string) (w : World) : World :=
  with_images (filter (fun p => negb (String.eqb (fst p) f)) (images w)) w.

(** [mainWindow?.webContents.send('clipboard-updated', clipboardHistory)] *)
Definition notify (w : World) : World := emit (Notified (clipboardHistory w)) w.

(** [saveClipboardHistory]: coerce every [pinned] in place, then write. *)
Definition saveClipboardHistory (w : World) : World :=
  let h := map coerce (clipboardHistory w) in
  emit (Saved h) (with_file (Some h) (with_history h w)).

(** [loadClipboardHistory]: missing file leaves the history as it is. *)
Definition loadClipboardHistory (w : World) : World :=
  match historyFile w with
  | None => w
  | Some history =>
      let history := map coerce history in
      with_history (pin_sort history) w
  end.

(** ** IPC handlers of [index.ts] (lines 861-911) *)

(** [delete-clipboard-item] *)
Definition delete_clipboard_item (i : string) (w : World) : World :=
  match findIndex (fun x => String.eqb (id x) i) (clipboardHistory w) with
  | None => w
  | Some index =>
      saveClipboardHistory (notify (with_history (remove_at index (clipboardHistory w)) w))
  end.

(** [clipboardHistory[index].pinned = !Boolean(clipboardHistory[index].pinned)] *)
Definition flip (x : ClipboardItem) : ClipboardItem :=
  set_pinned (Some (negb (Boolean (pinned x)))) x.

(** [toggle-pinned] *)
Definition toggle_pinned (i : string) (w : World) : World :=
  match findIndex (fun x => String.eqb (id x) i) (clipboardHistory w) with
  | None => w
  | Some index =>
      let h := update_at index flip (clipboardHistory w) in
      saveClipboardHistory (notify (with_history (pin_sort h) w))
  end.

(** [clearClipboardHistoryKeepPinned(clipboardHistory, mainWindow,
    saveClipboardHistory)]; returns the (same) history array. *)
Definition clearClipboardHistoryKeepPinned (w : World) : World * list ClipboardItem :=
  let h := map coerce (clipboardHistory w) in
  let pinnedItems := filter (fun x => is_pinned x) h in
  let w' := saveClipboardHistory (notify (with_history pinnedItems w)) in
  (w', clipboardHistory w').

(** ** Eviction *)

(** [[...clipboardHistory].reverse().findIndex(item => !item.pinned)],
    converted to [clipboardHistory.length - 1 - indexToRemove]. *)
Definition evictIndex (h : list ClipboardItem) : option nat :=
  match findIndex (fun x => negb (Boolean (pinned x))) (rev h) with
  | None => None
  | Some r => Some (length h - 1 - r)%nat
  end.

Definition over_limit (maxHistoryItems : Z) (h : list ClipboardItem) : bool :=
  (maxHistoryItems <? 999999) && (Z.of_nat (length h) >? maxHistoryItems).

(** The eviction of the text path of [index.ts] (lines 386-394): no image
    file clean-up. *)
Definition limitText (maxHistoryItems : Z) (h : list ClipboardItem) : list ClipboardItem :=
  if over_limit maxHistoryItems h then
    match evictIndex h with
    | Some actualIndex => remove_at actualIndex h
    | None => h
    end
  else h.

(** [limitHistoryItems] ([settings.ts] 267-302, and the image path of
    [index.ts] 433-466): also unlinks the image file of the removed item when
    no other item refers to it. *)
Definition limitHistoryItems (maxHistoryItems : Z) (w : World) : World :=
  let h := clipboardHistory w in
  if over_limit maxHistoryItems h then
    match evictIndex h with
    | Some actualIndex =>
        let w1 :=
          match nth_error h actualIndex with
          | Some removedItem =>
              match type removedItem, imagePath removedItem with
              | image, Some p =>
                  let otherReferences :=
                    existsb (fun x => kind_eqb (type x) image &&
                                      match imagePath x with
                                      | Some q => String.eqb q p
                                      | None => false
                                      end)
                            (remove_at actualIndex h) in
                  if negb otherReferences && file_exists p w then unlink p w else w
              | _, _ => w
              end
          | None => w
          end in
        with_history (remove_at actualIndex h) w1
    | None => w
    end
  else w.

(** ** Clipboard watcher, content store and paste *)

Section Watcher.

(** [crypto.createHash('md5').update(buf).digest('hex')] *)
Variable md5 : list Byte.byte -> string.
(** [nativeImage.createFromBuffer(Buffer.from(data, 'base64'))]; [None]
    when it throws *)
Variable decodeBase64 : string -> option (list Byte.byte).

(** [saveImageToFile] *)
Definition saveImageToFile (imageBuffer : list Byte.byte) (w : World) : World * string :=
  let hash := md5 imageBuffer in
  let fileName := (hash ++ ".png")%string in
  if file_exists fileName w then (w, fileName)
  else (with_images ((fileName, imageBuffer) :: images w) w, fileName).

(** [loadImageFromFile] *)
Definition loadImageFromFile (fileName : string) (w : World) : option (list Byte.byte) :=
  option_map snd (find (fun p => String.eqb (fst p) fileName) (images w)).

(** Text part of one tick of [startClipboardMonitoring] ([index.ts]
    367-401); [now] is the value of [Date.now()]. *)
Definition monitorText (maxHistoryItems now : Z) (currentText : string) (w : World) : World :=
  if negb (String.eqb currentText EmptyString)
     && negb (String.eqb currentText (lastClipboardContent w)) then
    let w := with_last currentText w in
    let newItem := mkItem (toString now) text currentText now
                          (Some (substring 0 100 currentText)) (Some false) None in
    let w := with_history (limitText maxHistoryItems (newItem :: clipboardHistory w)) w in
    saveClipboardHistory (notify w)
  else w.

(** Image part of one tick ([index.ts] 404-474); [readImage] is [None]
    when no image format is available or the image is empty. *)
Definition monitorImage (maxHistoryItems now : Z) (readImage : option (list Byte.byte))
    (w : World) : World :=
  match readImage with
  | None => w
  | Some imageBuffer =>
      let imageHash := md5 imageBuffer in
      let existingImage :=
        find (fun x => kind_eqb (type x) image && String.eqb (content x) imageHash)
             (clipboardHistory w) in
      match existingImage with
      | Some _ => w
      | None =>
          let (w, fileName) := saveImageToFile imageBuffer w in
          let newItem := mkItem (toString now) image imageHash now
                                (Some "Image") (Some false) (Some fileName) in
          let w := with_history (newItem :: clipboardHistory w) w in
          let w := limitHistoryItems maxHistoryItems w in
          saveClipboardHistory (notify w)
      end
  end.

(** One tick: the text check, then the image check. *)
Definition clipboardTick (maxHistoryItems nowText nowImage : Z) (currentText : string)
    (readImage : option (list Byte.byte)) (w : World) : World :=
  monitorImage maxHistoryItems nowImage readImage
    (monitorText maxHistoryItems nowText currentText w).

(** [cleanupUnusedImages] *)
Definition usedImages (h : list ClipboardItem) : list string :=
  flat_map (fun x => match type x, imagePath x with
                     | image, Some p => [p]
                     | _, _ => []
                     end) h.

Definition keep_used (used : list string) (w : World) : World :=
  with_images (filter (fun p => existsb (String.eqb (fst p)) used) (images w)) w.

Definition cleanupUnusedImages (w : World) : World :=
  match clipboardHistory w with
  | [] =>
      match historyFile w with
      | None => w
      | Some history => keep_used (usedImages history) w
      end
  | h => keep_used (usedImages h) w
  end.

(** The value returned to the renderer by [set-clipboard-content]. *)
Inductive PasteResult := PasteResultSuccess | PasteResultError (error : string).

(** [runAppleScript] resolves to [stdout.trim()] or, on failure, [null];
    [scriptResult] is that value ([None] for [null]). *)
Definition set_clipboard_content (item : ClipboardItem) (scriptResult : option string)
    (w : World) : World * PasteResult :=
  let written :=
    match type item with
    | text => inl (PText (content item))
    | image =>
        match imagePath item with
        | Some p =>
            match loadImageFromFile p w with
            | Some img => inl (PImage img)
            | None => inr "load-image-failed"
            end
        | None =>
            match decodeBase64 (content item) with
            | Some img => inl (PImage img)
            | None => inr "load-image-failed"
            end
        end
    end in
  match written with
  | inr err => (w, PasteResultError err)
  | inl payload =>
      let w := with_os payload w in
      let result := scriptResult in
      (w, PasteResultSuccess)
  end.

End Watcher.

(** ** Reachable states

    The process starts with an empty in-memory history (the history is loaded
    lazily), whatever file and image directory a previous run left; then
    runs ticks and IPC handlers in any order, and may be restarted.  The
    setting [maxHistoryItems] is read afresh at every tick. *)
Inductive step md5 decodeBase64 : World -> World -> Prop :=
  | StepTick m nowText nowImage currentText readImage w :
      step md5 decodeBase64 w (clipboardTick md5 m nowText nowImage currentText readImage w)
  | StepDelete i w : step md5 decodeBase64 w (delete_clipboard_item i w)
  | StepToggle i w : step md5 decodeBase64 w (toggle_pinned i w)
  | StepClear w : step md5 decodeBase64 w (fst (clearClipboardHistoryKeepPinned w))
  | StepLoad w : step md5 decodeBase64 w (loadClipboardHistory w)
  | StepCleanup w : step md5 decodeBase64 w (cleanupUnusedImages w)
  | StepPaste item r w : step md5 decodeBase64 w (fst (set_clipboard_content decodeBase64 item r w))
  | StepRestart s w : step md5 decodeBase64 w (with_last s (with_history [] w)).

Inductive reachable md5 decodeBase64 : World -> Prop :=
  | ReachInit f imgs s : reachable md5 decodeBase64 (mkWorld [] f imgs s PNone [])
  | ReachStep w w' : reachable md5 decodeBase64 w -> step md5 decodeBase64 w w' ->
                     reachable md5 decodeBase64 w'.

(** Small concrete entries and states. *)
Definition sample_item (i : string) (t : kind) (c : string) (ts : Z) (p : bool)
    (path : option string) : ClipboardItem :=
  mkItem i t c ts (Some c) (Some p) path.

Definition sample_world (h : list ClipboardItem) : World :=
  mkWorld h (Some h) [] EmptyString PNone [].

(** ** The canonical order of the history list *)

(** [a] may precede [b]: pinned before unpinned, then newer before older. *)
Definition ordb (a b : ClipboardItem) : bool :=
  if is_pinned a then negb (is_pinned b) || (timestamp b <=? timestamp a)
  else negb (is_pinned b) && (timestamp b <=? timestamp a).

(** [r] holds between every two neighbours. *)
Fixpoint adjacent {A} (r : A -> A -> bool) (l : list A) : bool :=
  match l with
  | a :: ((b :: _) as t) => r a b && adjacent r t
  | _ => true
  end.

(** Pinned entries first, each group newest first. *)
Definition canonical (l : list ClipboardItem) : bool := adjacent ordb l.

(** Timestamps of a list descend. *)
Definition sorted_desc (l : list ClipboardItem) : bool :=
  adjacent (fun a b => timestamp b <=? timestamp a) l.

(** The pinned entries appear newest first. *)
Definition pinned_sorted (h : list ClipboardItem) : bool :=
  sorted_desc (filter is_pinned h).

(** The same orders as propositions. *)
Definition ts_ge (a b : ClipboardItem) : Prop := timestamp b <= timestamp a.
Definition ord (a b : ClipboardItem) : Prop := ordb a b = true.

(** The pinned entries of every reachable history are newest first. *)
Definition PinnedSorted (l : list ClipboardItem) : Prop :=
  StronglySorted ts_ge (filter is_pinned l).

(** ** Showing the window ([index.ts] 337-357) *)

(** [showWindow]: the history is read from the file only when the in-memory
    list is empty; placing and focusing the window is not modelled. *)
Definition showWindow (w : World) : World :=
  match clipboardHistory w with
  | [] => loadClipboardHistory w
  | _ :: _ => w
  end.

(** ** The renderer store ([renderer/store/clipboardStore.ts]) *)

(** [setClipboardHistory(history)]: the list the store holds afterwards. *)
Definition setClipboardHistory (history : list ClipboardItem) : list ClipboardItem :=
  let history := map coerce history in
  let pinnedItems := filter (fun item => is_pinned item) history in
  let unpinnedItems := filter (fun item => negb (is_pinned item)) history in
  sort_desc pinnedItems ++ sort_desc unpinnedItems.

(** [deleteItem(id)]: once the main process has answered, the store keeps
    the entries whose id differs. *)
Definition deleteItem (i : string) (state : list ClipboardItem) : list ClipboardItem :=
  filter (fun item => negb (String.eqb (id item) i)) state.

(** ** The virtual list ([renderer/components/ClipboardHistory.tsx]) *)

Definition ITEM_HEIGHT : Z := 150.
Definition BUFFER_SIZE : Z := 5.

(** [calculateVisibleRange]: [scrollTop] is a number of pixels (it may be
    fractional), [containerHeight] the integer [clientHeight], [len] the
    length of the history. *)
Definition calculateVisibleRange (scrollTop : Q) (containerHeight : Z) (len : nat) : Z * Z :=
  let start := Qfloor (scrollTop / inject_Z ITEM_HEIGHT) - BUFFER_SIZE in
  let end_ := Qceiling ((scrollTop + inject_Z containerHeight) / inject_Z ITEM_HEIGHT)
              + BUFFER_SIZE in
  (Z.max 0 start, Z.min (Z.of_nat len) end_).

(** The position [Array.prototype.slice] takes an argument to. *)
Definition relative_index (k len : Z) : Z :=
  if k <? 0 then Z.max (len + k) 0 else Z.min k len.

(** [l.slice(start, end)] *)
Definition slice {A} (l : list A) (start end_ : Z) : list A :=
  let len := Z.of_nat (length l) in
  let s := relative_index start len in
  let e := relative_index end_ len in
  firstn (Z.to_nat (e - s)) (skipn (Z.to_nat s) l).

(** [visibleItems] *)
Definition visibleItems {A} (l : list A) (scrollTop : Q) (containerHeight : Z) : list A :=
  let r := calculateVisibleRange scrollTop containerHeight (length l) in
  slice l (fst r) (snd r).

(** ** Settings ([settings.ts] 11-110) *)

(** A JSON value as [JSON.parse] returns it; the numbers are the integers the
    settings hold. *)
Set Warnings "-register-all".
Inductive Json :=
  | JNull
  | JBool (b : bool)
  | JNum (n : Z)
  | JStr (s : string)
  | JArr (l : list Json)
  | JObj (o : list (string * Json)).

(** The own properties of a plain object.  Statements read values by key
    only, so the enumeration order of keys is not relied on. *)
Definition obj := list (string * Json).

(** [o[k]]; [None] is [undefined]. *)
Fixpoint obj_get (o : obj) (k : string) : option Json :=
  match o with
  | [] => None
  | (k', v) :: t => if String.eqb k' k then Some v else obj_get t k
  end.

(** [o[k] = v] *)
Fixpoint obj_set (k : string) (v : Json) (o : obj) : obj :=
  match o with
  | [] => [(k, v)]
  | (k', v') :: t => if String.eqb k' k then (k', v) :: t else (k', v') :: obj_set k v t
  end.

(** Copying properties into [o] one after the other, as a spread does. *)
Definition assign (o : obj) (props : obj) : obj :=
  fold_left (fun acc kv => obj_set (fst kv) (snd kv) acc) props o.

Fixpoint indexed {A} (f : A -> Json) (n : nat) (l : list A) : obj :=
  match l with
  | [] => []
  | x :: t => (toString (Z.of_nat n), f x) :: indexed f (S n) t
  end.

(** The properties [...v] copies: those of an object, the indices of an array
    or of a string (of ASCII characters), none for [null], a boolean or a
    number. *)
Definition spreadable (v : Json) : obj :=
  match v with
  | JObj o => o
  | JArr l => indexed (fun x => x) 0 l
  | JStr s => indexed (fun c => JStr (String c EmptyString)) 0 (list_ascii_of_string s)
  | _ => []
  end.

(** [v.k] for a key that is neither an index nor [length]. *)
Definition json_prop (v : Json) (k : string) : option Json :=
  match v with
  | JObj o => obj_get (assign [] o) k
  | _ => None
  end.

(** The settings file and the module state around it. *)
Record SettingsStore := mkSettingsStore {
  (** [None]: no [settings.json]; [Some None]: reading or [JSON.parse] throws *)
  settingsFile : option (option Json);
  (** whether [fs.writeFileSync(settingsPath, ...)] succeeds *)
  settingsWritable : bool;
  (** the object bound to the module constant [defaultSettings] *)
  defaultSettings : obj;
  (** what [app.setLoginItemSettings] last set as [openAtLogin] *)
  openAtLogin : bool
}.

Definition with_settings_file (f : option (option Json)) (s : SettingsStore) : SettingsStore :=
  mkSettingsStore f (settingsWritable s) (defaultSettings s) (openAtLogin s).
Definition with_defaults (d : obj) (s : SettingsStore) : SettingsStore :=
  mkSettingsStore (settingsFile s) (settingsWritable s) d (openAtLogin s).
Definition with_login (b : bool) (s : SettingsStore) : SettingsStore :=
  mkSettingsStore (settingsFile s) (settingsWritable s) (defaultSettings s) b.

(** The initial value of [defaultSettings]. *)
Definition defaultSettings0 : obj :=
  [("shortcut", JStr "CommandOrControl+Shift+V");
   ("historyRetention", JNum 0);
   ("launchAtStartup", JBool false);
   ("showTrayIcon", JBool true);
   ("showInDock", JBool false);
   ("maxHistoryItems", JNum 50);
   ("disableGPU", JBool true)].

(** What [loadSettings] returns: the [defaultSettings] object itself, or a
    fresh object. *)
Inductive Loaded := TheDefaults | Fresh (o : obj).

Definition loadSettings (s : SettingsStore) : Loaded :=
  match settingsFile s with
  | Some (Some userSettings) =>
      Fresh (assign (assign [] (defaultSettings s)) (spreadable userSettings))
  | _ => TheDefaults
  end.

(** The current content of a returned object. *)
Definition contents (l : Loaded) (s : SettingsStore) : obj :=
  match l with TheDefaults => defaultSettings s | Fresh o => o end.

(** [saveSettings(settings)]; [JSON.parse(JSON.stringify(o))] gives back the
    object [o]. *)
Definition saveSettings (settings : obj) (s : SettingsStore) : SettingsStore :=
  let currentSettings := contents (loadSettings s) s in
  let newSettings := assign (assign [] currentSettings) settings in
  if settingsWritable s then with_settings_file (Some (Some (JObj newSettings))) s else s.

Definition getSetting (key : string) (s : SettingsStore) : option Json :=
  obj_get (contents (loadSettings s) s) key.

(** [setSetting(key, value)]: [settings[key] = value] writes into the object
    [loadSettings] returned, which is [defaultSettings] itself when the file
    is missing or unreadable. *)
Definition setSetting (key : string) (value : Json) (s : SettingsStore) : SettingsStore :=
  match loadSettings s with
  | TheDefaults =>
      let s := with_defaults (obj_set key value (defaultSettings s)) s in
      saveSettings (defaultSettings s) s
  | Fresh settings => saveSettings (obj_set key value settings) s
  end.

(** [setAutoLaunch(enable)]; [loginItemOk] is [false] when
    [app.setLoginItemSettings] throws. *)
Definition setAutoLaunch (enable loginItemOk : bool) (s : SettingsStore) : SettingsStore :=
  if loginItemOk then setSetting "launchAtStartup" (JBool enable) (with_login enable s) else s.

(** [index.ts] 18-38: [initialSettings] is the parsed file, [undefined]
    without a file, [{ disableGPU: true }] when reading or parsing throws;
    hardware acceleration is disabled when [initialSettings?.disableGPU !== false]. *)
Definition initialSettings (file : option (option Json)) : option Json :=
  match file with
  | None => None
  | Some None => Some (JObj [("disableGPU", JBool true)])
  | Some (Some v) => Some v
  end.

Definition disableGPUAtStart (file : option (option Json)) : bool :=
  match match initialSettings file with
        | Some v => json_prop v "disableGPU"
        | None => None
        end with
  | Some (JBool false) => false
  | _ => true
  end.

(** ** Log filtering ([utils/logger.ts]) *)

Inductive LogLevel := DEBUG | INFO | WARN | ERROR.

Definition LogLevel_value (l : LogLevel) : string :=
  match l with DEBUG => "debug" | INFO => "info" | WARN => "warn" | ERROR => "error" end.

(** [logLevelPriority[level]]; [None] is [undefined]. *)
Definition logLevelPriority (level : string) : option Z :=
  if String.eqb level "debug" then Some 0
  else if String.eqb level "info" then Some 1
  else if String.eqb level "warn" then Some 2
  else if String.eqb level "error" then Some 3
  else None.

Definition logFilters0 : list (string * LogLevel) :=
  [("app", INFO); ("clipboard", INFO); ("memory", WARN); ("settings", INFO);
   ("window", INFO); ("tray", INFO); ("ipc", WARN); ("shortcut", INFO); ("system", INFO)].

Fixpoint lookup_level (filters : list (string * LogLevel)) (c : string) : option LogLevel :=
  match filters with
  | [] => None
  | (c', l) :: t => if String.eqb c' c then Some l else lookup_level t c
  end.

(** [logFilter]: [true] keeps the message.  [category] is [None] for a
    falsy [info.category], otherwise the key it is looked up under (not a
    name of [Object.prototype]). *)
Definition logFilter (logFilters : list (string * LogLevel)) (level : string)
    (category : option string) : bool :=
  let category := match category with Some c => c | None => "system" end in
  let minLevel := match lookup_level logFilters category with Some l => l | None => INFO end in
  match logLevelPriority level, logLevelPriority (LogLevel_value minLevel) with
  | Some p, Some q => negb (p <? q)
  | _, _ => true   (* [undefined < n] is false *)
  end.

Fixpoint set_level (c : string) (l : LogLevel) (filters : list (string * LogLevel))
    : list (string * LogLevel) :=
  match filters with
  | [] => []
  | (c', l') :: t => if String.eqb c' c then (c', l) :: t else (c', l') :: set_level c l t
  end.

(** [setCategoryLogLevel(category, level)] *)
Definition setCategoryLogLevel (category : string) (level : LogLevel)
    (logFilters : list (string * LogLevel)) : list (string * LogLevel) :=
  match lookup_level logFilters category with
  | Some _ => set_level category level logFilters
  | None => logFilters
  end.

(** ** Global shortcut ([index.ts] 619-691) *)

(** [s.replace(pattern, replacement)] with a string pattern: the first
    occurrence only. *)
Fixpoint replace_first (pattern replacement s : string) : string :=
  if prefix pattern s
  then (replacement ++ substring (String.length pattern)
                                 (String.length s - String.length pattern) s)%string
  else match s with
       | EmptyString => s
       | String c t => String c (replace_first pattern replacement t)
       end.

Inductive Platform := darwin | other_platform.

(** What one [applySettings] call leaves: the accelerator that is registered
    (after [globalShortcut.unregisterAll()]), the in-memory
    [settings.shortcut], and whether ['shortcut-registration-failed'] was
    sent. *)
Record ShortcutOutcome := mkShortcutOutcome {
  registeredShortcut : option string;
  settingsShortcut : string;
  failureNotified : bool
}.

Section Shortcuts.

(** [globalShortcut.register(accelerator, ...)]: [Some b] for the returned
    boolean, [None] when it throws. *)
Variable register : string -> option bool.

Definition defaultShortcutFor (p : Platform) : string :=
  match p with darwin => "Command+Shift+V" | other_platform => "Control+Shift+V" end.

(** [tryRegisterDefaultShortcut]: the registered accelerator and the new
    [settings.shortcut]. *)
Definition tryRegisterDefaultShortcut (p : Platform) (shortcut : string) : option string * string :=
  let defaultShortcut := defaultShortcutFor p in
  match register defaultShortcut with
  | Some true => (Some defaultShortcut, defaultShortcutFor p)
  | _ => (None, shortcut)
  end.

(** [applySettings]; [hasWindow] is [mainWindow && mainWindow.webContents]. *)
Definition applySettings (p : Platform) (hasWindow : bool) (shortcut : string) : ShortcutOutcome :=
  let shortcutToRegister :=
    replace_first "CommandOrControl"
                  (match p with darwin => "Command" | other_platform => "Control" end) shortcut in
  match register shortcutToRegister with
  | Some true => mkShortcutOutcome (Some shortcutToRegister) shortcut false
  | Some false =>
      let (r, s) := tryRegisterDefaultShortcut p shortcut in
      mkShortcutOutcome r s hasWindow
  | None => mkShortcutOutcome None shortcut false   (* the [catch] of [applySettings] *)
  end.

End Shortcuts.

(** ** Generic list lemmas *)

Section ListFacts.
Context {A : Type}.

Lemma SS_weaken (R R' : A -> A -> Prop) (l : list A) :
  (forall x y, In x l -> In y l -> R x y -> R' x y) ->
  StronglySorted R l -> StronglySorted R' l.
Proof.
  induction l as [|a t IH]; intros HR HS; constructor.
  - apply StronglySorted_inv in HS as [HS _].
    apply IH; [intros; apply HR; simpl; auto | exact HS].
  - apply StronglySorted_inv in HS as [_ HF].
    rewrite Forall_forall in *. intros y Hy. apply HR; simpl; auto.
Qed.

Lemma SS_filter (R : A -> A -> Prop) (f : A -> bool) (l : list A) :
  StronglySorted R l -> StronglySorted R (filter f l).
Proof.
  induction l as [|a t IH]; intros HS; simpl; [constructor|].
  apply StronglySorted_inv in HS as [HS HF].
  destruct (f a); [constructor|]; auto.
  rewrite Forall_forall in *. intros y Hy. apply filter_In in Hy. apply HF; tauto.
Qed.

Lemma In_remove_at (k : nat) (l : list A) (x : A) : In x (remove_at k l) -> In x l.
Proof.
  revert k; induction l as [|a t IH]; intros [|k]; simpl; auto.
  intros [->|H]; eauto.
Qed.

Lemma SS_remove_at (R : A -> A -> Prop) (k : nat) (l : list A) :
  StronglySorted R l -> StronglySorted R (remove_at k l).
Proof.
  revert k; induction l as [|a t IH]; intros [|k] HS; simpl; auto;
    apply StronglySorted_inv in HS as [HS HF]; auto.
  constructor; auto. rewrite Forall_forall in *. intros y Hy.
  apply HF. eapply In_remove_at; eauto.
Qed.

Lemma SS_app (R : A -> A -> Prop) (l1 l2 : list A) :
  StronglySorted R l1 -> StronglySorted R l2 ->
  (forall x y, In x l1 -> In y l2 -> R x y) -> StronglySorted R (l1 ++ l2).
Proof.
  induction l1 as [|a t IH]; intros H1 H2 HR; simpl; auto.
  apply StronglySorted_inv in H1 as [H1 HF]. constructor.
  - apply IH; auto. intros; apply HR; simpl; auto.
  - apply Forall_app. split; auto. rewrite Forall_forall. intros; apply HR; simpl; auto.
Qed.

Lemma filter_comm (f g : A -> bool) (l : list A) :
  filter f (filter g l) = filter g (filter f l).
Proof.
  induction l as [|a t IH]; simpl; auto.
  destruct (f a) eqn:E1, (g a) eqn:E2; simpl; rewrite ?E1, ?E2, IH; auto.
Qed.

Lemma findIndex_None (p : A -> bool) (l : list A) :
  findIndex p l = None -> forall x, In x l -> p x = false.
Proof.
  induction l as [|a t IH]; simpl; [tauto|].
  destruct (p a) eqn:E; [discriminate|].
  destruct (findIndex p t); [discriminate|]. intros _ x [->|H]; auto.
Qed.

Lemma adjacent_Sorted (r : A -> A -> bool) (l : list A) :
  adjacent r l = true <-> Sorted (fun a b => r a b = true) l.
Proof.
  induction l as [|a t IH]; simpl; [split; auto|].
  destruct t as [|b u].
  - split; auto.
  - rewrite andb_true_iff, IH. split.
    + intros [H1 H2]. constructor; auto.
    + intros H. apply Sorted_inv in H as [H1 H2]. inversion H2; auto.
Qed.

Lemma adjacent_SS (r : A -> A -> bool) (l : list A) :
  (forall x y z, r x y = true -> r y z = true -> r x z = true) ->
  adjacent r l = true <-> StronglySorted (fun a b => r a b = true) l.
Proof.
  intros Htr. rewrite adjacent_Sorted. split.
  - apply Sorted_StronglySorted. intros x y z; apply Htr.
  - apply StronglySorted_Sorted.
Qed.

End ListFacts.

(** ** The stable sort *)

Lemma In_insert_desc (a x : ClipboardItem) (l : list ClipboardItem) :
  In x (insert_desc a l) <-> a = x \/ In x l.
Proof.
  induction l as [|b t IH]; simpl; [tauto|].
  destruct (timestamp b <=? timestamp a); simpl; [tauto|]. rewrite IH; tauto.
Qed.

Lemma In_sort_desc (x : ClipboardItem) (l : list ClipboardItem) :
  In x (sort_desc l) <-> In x l.
Proof.
  induction l as [|a t IH]; simpl; [tauto|]. rewrite In_insert_desc, IH; tauto.
Qed.

Lemma insert_desc_sorted (a : ClipboardItem) (l : list ClipboardItem) :
  StronglySorted ts_ge l -> StronglySorted ts_ge (insert_desc a l).
Proof.
  unfold ts_ge. induction l as [|b t IH]; intros HS; simpl.
  - repeat constructor.
  - destruct (timestamp b <=? timestamp a) eqn:E.
    + apply Z.leb_le in E. constructor; auto.
      apply StronglySorted_inv in HS as [_ HF]. constructor; auto.
      rewrite Forall_forall in *. intros y Hy. specialize (HF y Hy). simpl in *; lia.
    + apply Z.leb_gt in E. apply StronglySorted_inv in HS as [HS HF].
      constructor; auto. rewrite Forall_forall in *. intros y Hy.
      apply In_insert_desc in Hy as [<-|Hy]; [simpl; lia | auto].
Qed.

Lemma sort_desc_sorted (l : list ClipboardItem) : StronglySorted ts_ge (sort_desc l).
Proof.
  induction l; simpl; [constructor | apply insert_desc_sorted; auto].
Qed.

Lemma sort_desc_id (l : list ClipboardItem) :
  StronglySorted ts_ge l -> sort_desc l = l.
Proof.
  induction l as [|a t IH]; intros HS; simpl; auto.
  apply StronglySorted_inv in HS as [HS HF]. rewrite IH by auto.
  destruct t as [|b u]; simpl; auto.
  inversion HF; subst. unfold ts_ge in *. apply Z.leb_le in H1. rewrite H1; auto.
Qed.

Lemma filter_insert_desc (f : ClipboardItem -> bool) (a : ClipboardItem) (s : list ClipboardItem) :
  StronglySorted ts_ge s ->
  filter f (insert_desc a s) = if f a then insert_desc a (filter f s) else filter f s.
Proof.
  induction s as [|b t IH]; intros HS.
  - simpl. destruct (f a); auto.
  - apply StronglySorted_inv in HS as [HS HF]. cbn [insert_desc].
    destruct (timestamp b <=? timestamp a) eqn:E.
    + apply Z.leb_le in E.
      change (filter f (a :: b :: t))
        with (if f a then a :: filter f (b :: t) else filter f (b :: t)).
      destruct (f a) eqn:Fa; [|reflexivity].
      (* the first kept element is no newer than [b], hence than [a] *)
      assert (Hle : forall c, In c (filter f (b :: t)) -> timestamp c <= timestamp a).
      { intros c Hc. apply filter_In in Hc as [[<-|Hc] _]; [lia|].
        rewrite Forall_forall in HF. specialize (HF c Hc). unfold ts_ge in HF. lia. }
      destruct (filter f (b :: t)) as [|c u] eqn:Ef; cbn [insert_desc]; auto.
      rewrite (proj2 (Z.leb_le _ _)); auto. apply Hle; simpl; auto.
    + apply Z.leb_gt in E. cbn [filter]. rewrite IH by auto.
      destruct (f b) eqn:Fb, (f a) eqn:Fa; cbn [insert_desc]; auto.
      rewrite (proj2 (Z.leb_gt _ _)) by lia. reflexivity.
Qed.

Lemma filter_sort_desc (f : ClipboardItem -> bool) (l : list ClipboardItem) :
  filter f (sort_desc l) = sort_desc (filter f l).
Proof.
  induction l as [|a t IH]; simpl; auto.
  rewrite filter_insert_desc by apply sort_desc_sorted. rewrite IH.
  destruct (f a); reflexivity.
Qed.

Lemma filter_pin_sort (f : ClipboardItem -> bool) (l : list ClipboardItem) :
  filter f (pin_sort l) = pin_sort (filter f l).
Proof.
  unfold pin_sort. rewrite filter_app, !filter_sort_desc, (filter_comm f is_pinned),
    (filter_comm f (fun x => negb (is_pinned x))). reflexivity.
Qed.

(** Coercing [pinned] keeps every key of the order. *)
Lemma is_pinned_coerce (x : ClipboardItem) : is_pinned (coerce x) = is_pinned x.
Proof. destruct x as [? ? ? ? ? [[|]|] ?]; reflexivity. Qed.

Lemma coerce_idem (x : ClipboardItem) : coerce (coerce x) = coerce x.
Proof. destruct x as [? ? ? ? ? [[|]|] ?]; reflexivity. Qed.

Lemma map_coerce_insert (a : ClipboardItem) (l : list ClipboardItem) :
  map coerce (insert_desc a l) = insert_desc (coerce a) (map coerce l).
Proof.
  induction l as [|b t IH]; simpl; auto.
  destruct (timestamp b <=? timestamp a); simpl; rewrite ?IH; auto.
Qed.

Lemma map_coerce_sort (l : list ClipboardItem) :
  map coerce (sort_desc l) = sort_desc (map coerce l).
Proof.
  induction l as [|a t IH]; simpl; auto. rewrite map_coerce_insert, IH; auto.
Qed.

Lemma filter_map_coerce (f : bool -> bool) (l : list ClipboardItem) :
  filter (fun x => f (is_pinned x)) (map coerce l)
  = map coerce (filter (fun x => f (is_pinned x)) l).
Proof.
  induction l as [|a t IH]; simpl; auto.
  rewrite is_pinned_coerce. destruct (f (is_pinned a)); simpl; rewrite IH; auto.
Qed.

Lemma map_coerce_pin_sort (l : list ClipboardItem) :
  map coerce (pin_sort l) = pin_sort (map coerce l).
Proof.
  unfold pin_sort. rewrite map_app, !map_coerce_sort.
  rewrite (filter_map_coerce (fun b => b)), (filter_map_coerce negb). reflexivity.
Qed.

Lemma map_coerce_idem (l : list ClipboardItem) : map coerce (map coerce l) = map coerce l.
Proof. rewrite map_map. apply map_ext, coerce_idem. Qed.

(** ** The canonical order *)

Lemma ordb_trans (x y z : ClipboardItem) : ordb x y = true -> ordb y z = true -> ordb x z = true.
Proof.
  unfold ordb. destruct (is_pinned x), (is_pinned y), (is_pinned z); simpl;
    rewrite ?andb_true_iff, ?orb_true_iff, ?Z.leb_le; intuition (try discriminate; lia).
Qed.

Lemma canonical_spec (l : list ClipboardItem) : canonical l = true <-> StronglySorted ord l.
Proof. apply adjacent_SS, ordb_trans. Qed.

Lemma sorted_desc_spec (l : list ClipboardItem) : sorted_desc l = true <-> StronglySorted ts_ge l.
Proof.
  unfold sorted_desc, ts_ge.
  rewrite adjacent_SS by (intros x y z; rewrite !Z.leb_le; lia).
  split; apply SS_weaken; intros x y _ _; apply Z.leb_le.
Qed.

Lemma filter_pinned_In (f : bool -> bool) (x : ClipboardItem) (l : list ClipboardItem) :
  In x (sort_desc (filter (fun y => f (is_pinned y)) l)) -> f (is_pinned x) = true.
Proof. rewrite In_sort_desc, filter_In. tauto. Qed.

Lemma canon_pin_sort (l : list ClipboardItem) : StronglySorted ord (pin_sort l).
Proof.
  unfold pin_sort, ord. apply SS_app.
  - eapply SS_weaken; [|apply sort_desc_sorted].
    intros x y Hx Hy H. apply (filter_pinned_In (fun b => b)) in Hx, Hy.
    unfold ordb, ts_ge in *. rewrite Hx, Hy. simpl. apply Z.leb_le; auto.
  - eapply SS_weaken; [|apply sort_desc_sorted].
    intros x y Hx Hy H. apply (filter_pinned_In negb) in Hx, Hy.
    unfold ordb, ts_ge in *. apply negb_true_iff in Hx, Hy. rewrite Hx, Hy. simpl.
    apply Z.leb_le; auto.
  - intros x y Hx Hy. apply (filter_pinned_In (fun b => b)) in Hx.
    apply (filter_pinned_In negb) in Hy. unfold ordb. rewrite Hx, Hy. reflexivity.
Qed.

Lemma canon_split (l : list ClipboardItem) :
  StronglySorted ord l -> l = filter is_pinned l ++ filter (fun x => negb (is_pinned x)) l.
Proof.
  induction l as [|a t IH]; intros HS; simpl; auto.
  apply StronglySorted_inv in HS as [HS HF].
  destruct (is_pinned a) eqn:Ea; simpl.
  - f_equal. auto.
  - (* every later entry is unpinned too *)
    assert (Hu : forall y, In y t -> is_pinned y = false).
    { intros y Hy. rewrite Forall_forall in HF. specialize (HF y Hy).
      unfold ord, ordb in HF. rewrite Ea in HF. apply andb_true_iff in HF as [HF _].
      apply negb_true_iff; auto. }
    rewrite (filter_ext_in is_pinned (fun _ => false) t) by auto.
    rewrite filter_false. simpl. f_equal. symmetry. apply forallb_filter_id, forallb_forall.
    intros y Hy. rewrite Hu; auto.
Qed.

Lemma pin_sort_id (l : list ClipboardItem) : StronglySorted ord l -> pin_sort l = l.
Proof.
  intros HS. unfold pin_sort. rewrite (canon_split l HS) at 3.
  rewrite !sort_desc_id; auto.
  - eapply SS_weaken; [|apply SS_filter; exact HS].
    intros x y Hx Hy H. apply filter_In in Hx as [_ Hx], Hy as [_ Hy].
    apply negb_true_iff in Hx, Hy. unfold ord, ordb, ts_ge in *. rewrite Hx, Hy in H.
    simpl in H. apply Z.leb_le; auto.
  - eapply SS_weaken; [|apply SS_filter; exact HS].
    intros x y Hx Hy H. apply filter_In in Hx as [_ Hx], Hy as [_ Hy].
    unfold ord, ordb, ts_ge in *. rewrite Hx, Hy in H. simpl in H. apply Z.leb_le; auto.
Qed.

Lemma SS_map_coerce (R : ClipboardItem -> ClipboardItem -> Prop) (l : list ClipboardItem) :
  (forall x y, R x y -> R (coerce x) (coerce y)) ->
  StronglySorted R l -> StronglySorted R (map coerce l).
Proof.
  intros HR. induction l as [|a t IH]; intros HS; simpl; [constructor|].
  apply StronglySorted_inv in HS as [HS HF]. constructor; auto.
  rewrite Forall_forall in *. intros y Hy. apply in_map_iff in Hy as [z [<- Hz]]. auto.
Qed.

Lemma ord_coerce (x y : ClipboardItem) : ord x y -> ord (coerce x) (coerce y).
Proof. unfold ord, ordb. rewrite !is_pinned_coerce. auto. Qed.

Lemma ts_ge_coerce (x y : ClipboardItem) : ts_ge x y -> ts_ge (coerce x) (coerce y).
Proof. auto. Qed.

(** ** Facts about the handlers *)

Lemma findIndex_None_intro {A} (p : A -> bool) (l : list A) :
  existsb p l = false -> findIndex p l = None.
Proof.
  induction l as [|a t IH]; simpl; auto.
  destruct (p a); simpl; [discriminate|]. intros H. rewrite IH; auto.
Qed.

Lemma usedImages_map_coerce (l : list ClipboardItem) : usedImages (map coerce l) = usedImages l.
Proof. induction l as [|a t IH]; simpl; auto. rewrite IH. reflexivity. Qed.

(** After a save, [cleanupUnusedImages] keeps exactly the files the
    in-memory history refers to, whichever branch it takes. *)
Lemma cleanup_after_save (w : World) :
  historyFile w = Some (clipboardHistory w) ->
  cleanupUnusedImages w = keep_used (usedImages (clipboardHistory w)) w.
Proof.
  unfold cleanupUnusedImages. intros Hf. destruct (clipboardHistory w); auto.
  rewrite Hf. reflexivity.
Qed.

Lemma limitHistoryItems_history (m : Z) (w : World) :
  clipboardHistory (limitHistoryItems m w) = limitText m (clipboardHistory w).
Proof.
  unfold limitHistoryItems, limitText.
  destruct (over_limit m (clipboardHistory w)); auto.
  destruct (evictIndex (clipboardHistory w)); auto.
Qed.

Lemma set_clipboard_content_history decodeBase64 item r w :
  clipboardHistory (fst (set_clipboard_content decodeBase64 item r w)) = clipboardHistory w.
Proof.
  unfold set_clipboard_content.
  destruct (type item); [reflexivity|].
  destruct (imagePath item); [destruct (loadImageFromFile _ w)|destruct (decodeBase64 _)];
    reflexivity.
Qed.

Lemma set_clipboard_content_script decodeBase64 item r w :
  set_clipboard_content decodeBase64 item r w
  = set_clipboard_content decodeBase64 item None w.
Proof. reflexivity. Qed.

(** ** C10: unknown ids *)

(** C10. For an id that no entry of the history carries, [delete-clipboard-item]
    and [toggle-pinned] return the state unchanged: same history, no write of
    the history file and no ['clipboard-updated'] notification (the event log
    is unchanged). *)
Theorem unknown_id_is_noop (i : string) (w : World) :
  existsb (fun x => String.eqb (id x) i) (clipboardHistory w) = false ->
  delete_clipboard_item i w = w /\ toggle_pinned i w = w.
Proof.
  intros H. apply findIndex_None_intro in H.
  unfold delete_clipboard_item, toggle_pinned. rewrite H. auto.
Qed.

Lemma unknown_id_is_noop_witness :
  let w := sample_world [sample_item "1" text "a" 1 false None] in
  existsb (fun x => String.eqb (id x) "7") (clipboardHistory w) = false /\
  delete_clipboard_item "7" w = w /\ toggle_pinned "7" w = w.
Proof.
  simpl. split; [reflexivity|]. apply unknown_id_is_noop. reflexivity.
Defined.

(** ** C7: content-addressed images *)

(** C7. When the watcher reads a clipboard image whose MD5 hex digest equals
    the [content] of an image entry already in the history, the image check
    of the tick changes nothing: no new entry, no file written, no event.
    [saveImageToFile] names the file [<hash>.png], writes it only when no file
    of that name exists, returns the name in every case, and is idempotent. *)
Theorem duplicate_image_is_noop md5 (m now : Z) (buf : list Byte.byte) (w : World) :
  existsb (fun x => kind_eqb (type x) image && String.eqb (content x) (md5 buf))
          (clipboardHistory w) = true ->
  monitorImage md5 m now (Some buf) w = w /\
  snd (saveImageToFile md5 buf w) = (md5 buf ++ ".png")%string /\
  (file_exists (md5 buf ++ ".png") w = true -> fst (saveImageToFile md5 buf w) = w) /\
  (file_exists (md5 buf ++ ".png") w = false ->
     fst (saveImageToFile md5 buf w)
     = with_images (((md5 buf ++ ".png")%string, buf) :: images w) w) /\
  saveImageToFile md5 buf (fst (saveImageToFile md5 buf w)) = saveImageToFile md5 buf w.
Proof.
  intros Hex. unfold monitorImage.
  destruct (find _ (clipboardHistory w)) eqn:Ef.
  2:{ apply existsb_exists in Hex as [x [Hx Hp]].
      eapply find_none in Ef; eauto. rewrite Ef in Hp. discriminate. }
  split; [reflexivity|]. unfold saveImageToFile. simpl.
  destruct (file_exists (md5 buf ++ ".png") w) eqn:E; simpl.
  - repeat split; auto; try discriminate. rewrite E. reflexivity.
  - repeat split; auto; try discriminate.
    unfold file_exists. simpl. rewrite String.eqb_refl. reflexivity.
Qed.

Lemma duplicate_image_is_noop_witness :
  let md5 := fun _ : list Byte.byte => "d41d8cd9" in
  let w := sample_world [sample_item "1" image "d41d8cd9" 1 false (Some "d41d8cd9.png")] in
  existsb (fun x => kind_eqb (type x) image && String.eqb (content x) (md5 [Byte.x00]))
          (clipboardHistory w) = true /\
  monitorImage md5 50 2 (Some [Byte.x00]) w = w.
Proof.
  intros md5 w. split; [reflexivity|].
  exact (proj1 (duplicate_image_is_noop md5 50 2 [Byte.x00] w eq_refl)).
Defined.

(** ** C9: failure of the paste keystroke *)

(** C9. The value [set-clipboard-content] hands back does not depend on the
    outcome of [runAppleScript] ([null] on failure), and the history is left
    as it is; for a text entry a failed keystroke is answered with
    [{success: true}], the same as a successful one. *)
Theorem paste_failure_reported_as_success decodeBase64 (item : ClipboardItem)
    (r : option string) (w : World) :
  set_clipboard_content decodeBase64 item None w = set_clipboard_content decodeBase64 item r w /\
  clipboardHistory (fst (set_clipboard_content decodeBase64 item None w)) = clipboardHistory w /\
  snd (set_clipboard_content decodeBase64 (sample_item "1" text "hello" 1 false None) None w)
  = PasteResultSuccess.
Proof.
  split; [symmetry; apply set_clipboard_content_script|].
  split; [apply set_clipboard_content_history | reflexivity].
Qed.

(** ** C1: deleting an image entry *)

(** C1 (as stated). Deleting the only entry that refers to [h.png] leaves
    [h.png] in the image directory. *)
Lemma delete_keeps_image_file :
  let w := mkWorld [sample_item "1" image "h" 1 false (Some "h.png")] None
                   [("h.png", [Byte.x00])] EmptyString PNone [] in
  clipboardHistory (delete_clipboard_item "1" w) = [] /\
  file_exists "h.png" (delete_clipboard_item "1" w) = true.
Proof. split; reflexivity. Qed.

(** C1 (amended). [delete-clipboard-item] removes the first entry with the
    id, notifies and saves, and leaves the image directory untouched; the next
    [cleanupUnusedImages] then removes every file the remaining entries do
    not refer to, so the backing file of a deleted image entry that no other
    entry references disappears at that clean-up. *)
Theorem delete_then_cleanup (i : string) (w : World) (k : nat) :
  findIndex (fun x => String.eqb (id x) i) (clipboardHistory w) = Some k ->
  clipboardHistory (delete_clipboard_item i w) = map coerce (remove_at k (clipboardHistory w)) /\
  images (delete_clipboard_item i w) = images w /\
  events (delete_clipboard_item i w)
  = Saved (map coerce (remove_at k (clipboardHistory w)))
    :: Notified (remove_at k (clipboardHistory w)) :: events w /\
  (forall p, ~ In p (usedImages (remove_at k (clipboardHistory w))) ->
     file_exists p (cleanupUnusedImages (delete_clipboard_item i w)) = false).
Proof.
  intros Hk. unfold delete_clipboard_item. rewrite Hk.
  split; [reflexivity|]. split; [reflexivity|]. split; [reflexivity|].
  intros p Hp. rewrite cleanup_after_save by reflexivity.
  unfold file_exists, keep_used. simpl. rewrite usedImages_map_coerce.
  destruct (existsb _ _) eqn:E; auto. exfalso.
  apply existsb_exists in E as [[q b] [Hq Hq']]. simpl in Hq'.
  apply String.eqb_eq in Hq'. subst q.
  apply filter_In in Hq as [_ Hq]. simpl in Hq.
  apply existsb_exists in Hq as [y [Hy Hy']]. apply String.eqb_eq in Hy'. subst y.
  contradiction.
Qed.

Lemma delete_then_cleanup_witness :
  let w := mkWorld [sample_item "1" image "h" 1 false (Some "h.png")] None
                   [("h.png", [Byte.x00])] EmptyString PNone [] in
  findIndex (fun x => String.eqb (id x) "1") (clipboardHistory w) = Some O /\
  file_exists "h.png" (cleanupUnusedImages (delete_clipboard_item "1" w)) = false.
Proof.
  intros w. split; [reflexivity|].
  apply (proj2 (proj2 (proj2 (delete_then_cleanup "1" w O eq_refl)))).
  simpl. tauto.
Defined.

(** ** C2: the order of the history list *)

Lemma save_history (w : World) :
  clipboardHistory (saveClipboardHistory w) = map coerce (clipboardHistory w).
Proof. reflexivity. Qed.

Lemma canon_map_coerce (l : list ClipboardItem) :
  StronglySorted ord l -> StronglySorted ord (map coerce l).
Proof. apply SS_map_coerce, ord_coerce. Qed.

Lemma canon_limitText (m : Z) (l : list ClipboardItem) :
  StronglySorted ord l -> StronglySorted ord (limitText m l).
Proof.
  unfold limitText. destruct (over_limit m l); auto.
  destruct (evictIndex l); auto. apply SS_remove_at.
Qed.

Lemma saveImageToFile_history md5 (b : list Byte.byte) (w : World) :
  clipboardHistory (fst (saveImageToFile md5 b w)) = clipboardHistory w.
Proof. unfold saveImageToFile. destruct (file_exists _ w); reflexivity. Qed.

(** The history after an image check that adds an entry. *)
Lemma monitorImage_history md5 (m now : Z) (b : list Byte.byte) (w : World) :
  clipboardHistory (monitorImage md5 m now (Some b) w) = clipboardHistory w \/
  clipboardHistory (monitorImage md5 m now (Some b) w)
  = map coerce (limitText m (mkItem (toString now) image (md5 b) now (Some "Image") (Some false)
                             (Some (snd (saveImageToFile md5 b w))) :: clipboardHistory w)).
Proof.
  unfold monitorImage. destruct (find _ _); [left; reflexivity|right].
  destruct (saveImageToFile md5 b w) as [w1 f] eqn:E.
  rewrite save_history. unfold notify, emit. simpl. rewrite limitHistoryItems_history.
  simpl. f_equal. f_equal. f_equal.
  pose proof (saveImageToFile_history md5 b w) as H. rewrite E in H. exact H.
Qed.

Lemma monitorText_history (m now : Z) (s : string) (w : World) :
  clipboardHistory (monitorText m now s w) = clipboardHistory w \/
  clipboardHistory (monitorText m now s w)
  = map coerce (limitText m (mkItem (toString now) text s now (Some (substring 0 100 s))
                                    (Some false) None :: clipboardHistory w)).
Proof.
  unfold monitorText. destruct (_ && _); [right|left]; reflexivity.
Qed.

(** A new unpinned entry at the head keeps the order when nothing is pinned
    and nothing is newer. *)
Lemma canon_cons_unpinned (x : ClipboardItem) (l : list ClipboardItem) :
  is_pinned x = false ->
  forallb (fun y => negb (is_pinned y) && (timestamp y <=? timestamp x)) l = true ->
  StronglySorted ord l -> StronglySorted ord (x :: l).
Proof.
  intros Hx Hl HS. constructor; auto. rewrite Forall_forall. intros y Hy.
  rewrite forallb_forall in Hl. specialize (Hl y Hy).
  unfold ord, ordb. rewrite Hx. exact Hl.
Qed.









(** ** C5: save then load *)




(** ** C6: toggling twice *)

Section UpdateFacts.
Context {A : Type}.

Lemma filter_update_at_neg (p : A -> bool) (f : A -> A) (l : list A) (k : nat) :
  (forall x, p (f x) = p x) -> findIndex p l = Some k ->
  filter (fun y => negb (p y)) (update_at k f l) = filter (fun y => negb (p y)) l.
Proof.
  intros Hf. revert k. induction l as [|a t IH]; intros k Hk; [discriminate|].
  simpl in Hk. destruct (p a) eqn:Ea.
  - injection Hk as <-. simpl. rewrite Hf, Ea. reflexivity.
  - destruct (findIndex p t) as [k'|] eqn:Et; [|discriminate].
    injection Hk as <-. simpl. rewrite Ea. simpl. f_equal. auto.
Qed.

Lemma filter_update_at_pos (p : A -> bool) (f : A -> A) (l : list A) (k : nat) :
  (forall x, p (f x) = p x) -> findIndex p l = Some k ->
  filter p (update_at k f l) = update_at O f (filter p l).
Proof.
  intros Hf. revert k. induction l as [|a t IH]; intros k Hk; [discriminate|].
  simpl in Hk. destruct (p a) eqn:Ea.
  - injection Hk as <-. simpl. rewrite Hf, Ea. reflexivity.
  - destruct (findIndex p t) as [k'|] eqn:Et; [|discriminate].
    injection Hk as <-. simpl. rewrite Ea. auto.
Qed.

Lemma findIndex_filter_cons (p : A -> bool) (l : list A) (y : A) (r : list A) :
  filter p l = y :: r -> exists k, findIndex p l = Some k.
Proof.
  induction l as [|a t IH]; simpl; [discriminate|].
  destruct (p a); [eauto|]. intros H. destruct (IH H) as [k ->]. simpl; eauto.
Qed.

End UpdateFacts.

Lemma filter_map_coerce_inv (f : ClipboardItem -> bool) (l : list ClipboardItem) :
  (forall x, f (coerce x) = f x) -> filter f (map coerce l) = map coerce (filter f l).
Proof.
  intros Hf. induction l as [|a t IH]; simpl; auto.
  rewrite Hf. destruct (f a); simpl; rewrite IH; auto.
Qed.

Lemma pin_sort_single (x : ClipboardItem) : pin_sort [x] = [x].
Proof. unfold pin_sort. simpl. destruct (is_pinned x); reflexivity. Qed.

(** One toggle of an id carried by exactly the entry [x]. *)
Lemma toggle_pinned_filters (i : string) (w : World) (x : ClipboardItem) :
  filter (fun y => String.eqb (id y) i) (clipboardHistory w) = [x] ->
  filter (fun y => String.eqb (id y) i) (clipboardHistory (toggle_pinned i w)) = [coerce (flip x)] /\
  filter (fun y => negb (String.eqb (id y) i)) (clipboardHistory (toggle_pinned i w))
  = map coerce (pin_sort (filter (fun y => negb (String.eqb (id y) i)) (clipboardHistory w))).
Proof.
  intros Hx. destruct (findIndex_filter_cons _ _ _ _ Hx) as [k Hk].
  unfold toggle_pinned. rewrite Hk, save_history. unfold notify, emit, with_history. simpl.
  split.
  - rewrite filter_map_coerce_inv by reflexivity. rewrite filter_pin_sort.
    rewrite (filter_update_at_pos _ flip _ k) by (auto || reflexivity).
    rewrite Hx. simpl. rewrite pin_sort_single. reflexivity.
  - rewrite (filter_map_coerce_inv (fun y => negb (String.eqb (id y) i))) by reflexivity.
    rewrite filter_pin_sort.
    rewrite (filter_update_at_neg (fun y => String.eqb (id y) i) flip _ k) by (auto || reflexivity).
    reflexivity.
Qed.

Lemma flip_coerce_flip (x : ClipboardItem) : coerce (flip (coerce (flip x))) = coerce x.
Proof. destruct x as [? ? ? ? ? [[|]|] ?]; reflexivity. Qed.

(** C6 (as stated). From a pinned text "A" (t = 1) the watcher inserts "B"
    (t = 2) and "C" (t = 3), giving ["3"; "2"; "1"]; toggling "2" twice puts
    "1" ahead of "3". *)
Lemma toggle_twice_reorders :
  let w := monitorText 50 3 "C" (monitorText 50 2 "B"
             (sample_world [sample_item "1" text "A" 1 true None])) in
  map id (clipboardHistory w) = ["3"; "2"; "1"] /\
  map id (clipboardHistory (toggle_pinned "2" (toggle_pinned "2" w))) = ["1"; "3"; "2"].
Proof. split; reflexivity. Qed.

(** C6 (amended). When the history is in canonical order and exactly one
    entry [x] has the id, toggling it twice gives that entry back with its
    original [pinned] value (as a strict boolean) and leaves the other entries
    in their original relative order ([pinned] coerced to a boolean). *)
Theorem toggle_twice (i : string) (w : World) (x : ClipboardItem) :
  canonical (clipboardHistory w) = true ->
  filter (fun y => String.eqb (id y) i) (clipboardHistory w) = [x] ->
  filter (fun y => String.eqb (id y) i) (clipboardHistory (toggle_pinned i (toggle_pinned i w)))
  = [coerce x] /\
  Boolean (pinned (coerce x)) = Boolean (pinned x) /\
  filter (fun y => negb (String.eqb (id y) i)) (clipboardHistory (toggle_pinned i (toggle_pinned i w)))
  = map coerce (filter (fun y => negb (String.eqb (id y) i)) (clipboardHistory w)).
Proof.
  rewrite canonical_spec. intros Hc Hx.
  destruct (toggle_pinned_filters i w x Hx) as [H1 H2].
  destruct (toggle_pinned_filters i (toggle_pinned i w) _ H1) as [H3 H4].
  split; [rewrite H3; f_equal; apply flip_coerce_flip|].
  split; [destruct x as [? ? ? ? ? [[|]|] ?]; reflexivity|].
  rewrite H4, H2.
  assert (HN : StronglySorted ord (filter (fun y => negb (String.eqb (id y) i)) (clipboardHistory w)))
    by (apply SS_filter, Hc).
  rewrite (pin_sort_id _ HN), pin_sort_id.
  - apply map_coerce_idem.
  - apply canon_map_coerce, HN.
Qed.

Lemma toggle_twice_witness :
  let w := sample_world [sample_item "1" text "A" 1 true None; sample_item "3" text "C" 3 false None;
                         sample_item "2" text "B" 2 false None] in
  canonical (clipboardHistory w) = true /\
  filter (fun y => String.eqb (id y) "2") (clipboardHistory w) = [sample_item "2" text "B" 2 false None] /\
  filter (fun y => String.eqb (id y) "2") (clipboardHistory (toggle_pinned "2" (toggle_pinned "2" w)))
  = [coerce (sample_item "2" text "B" 2 false None)].
Proof.
  intros w. split; [reflexivity|]. split; [reflexivity|].
  exact (proj1 (toggle_twice "2" w _ eq_refl eq_refl)).
Defined.

(** ** C3: the eviction step *)

Section EvictFacts.
Context {A : Type}.

Lemma findIndex_Some_split (p : A -> bool) (m : list A) (r : nat) :
  findIndex p m = Some r ->
  exists m1 x m2, m = m1 ++ x :: m2 /\ length m1 = r /\ p x = true /\
                  forall y, In y m1 -> p y = false.
Proof.
  revert r. induction m as [|a t IH]; intros r H; simpl in H; [discriminate|].
  destruct (p a) eqn:Ea.
  - injection H as <-. exists [], a, t. simpl. repeat split; auto. intros y [].
  - destruct (findIndex p t) as [r'|] eqn:Et; [|discriminate]. injection H as <-.
    destruct (IH r' eq_refl) as [m1 [x [m2 [-> [Hl [Hx Hm]]]]]].
    exists (a :: m1), x, m2. simpl. repeat split; auto.
    intros y [<-|Hy]; auto.
Qed.

Lemma remove_at_app (l1 l2 : list A) (x : A) :
  remove_at (length l1) (l1 ++ x :: l2) = l1 ++ l2.
Proof. induction l1 as [|a t IH]; simpl; f_equal; auto. Qed.

End EvictFacts.

(** [evictIndex] points at the unpinned entry nearest the tail. *)
Lemma evictIndex_Some (l : list ClipboardItem) (k : nat) :
  evictIndex l = Some k ->
  exists l1 x l2, l = l1 ++ x :: l2 /\ length l1 = k /\ Boolean (pinned x) = false /\
                  forall y, In y l2 -> Boolean (pinned y) = true.
Proof.
  unfold evictIndex. destruct (findIndex _ (rev l)) as [r|] eqn:E; [|discriminate].
  intros H. injection H as <-.
  destruct (findIndex_Some_split _ _ _ E) as [m1 [x [m2 [Hm [Hl [Hx Hy]]]]]].
  assert (Hl' : l = rev m2 ++ x :: rev m1).
  { rewrite <- (rev_involutive l), Hm, rev_app_distr. simpl. rewrite <- app_assoc. reflexivity. }
  exists (rev m2), x, (rev m1). split; [exact Hl'|]. split.
  { rewrite Hl', length_app, !length_rev. simpl. rewrite length_rev. lia. }
  split; [apply negb_true_iff; auto|].
  intros y Hin. rewrite <- in_rev in Hin. apply Hy in Hin. apply negb_false_iff; auto.
Qed.

Lemma evictIndex_None (l : list ClipboardItem) :
  evictIndex l = None -> forall y, In y l -> Boolean (pinned y) = true.
Proof.
  unfold evictIndex. destruct (findIndex _ (rev l)) eqn:E; [discriminate|].
  intros _ y Hy. apply in_rev in Hy. apply (findIndex_None _ _ E) in Hy.
  apply negb_false_iff; auto.
Qed.

Lemma limitText_cases (m : Z) (l : list ClipboardItem) :
  (limitText m l = l /\ (over_limit m l = false \/ forall y, In y l -> Boolean (pinned y) = true)) \/
  (exists l1 x l2, l = l1 ++ x :: l2 /\ Boolean (pinned x) = false /\
                   (forall y, In y l2 -> Boolean (pinned y) = true) /\
                   over_limit m l = true /\ limitText m l = l1 ++ l2).
Proof.
  unfold limitText. destruct (over_limit m l) eqn:Eo; [|left; auto].
  destruct (evictIndex l) as [k|] eqn:Ek.
  - right. destruct (evictIndex_Some _ _ Ek) as [l1 [x [l2 [Hl [Hk [Hx Hy]]]]]].
    exists l1, x, l2. repeat (split; [assumption|]). split; [reflexivity|].
    rewrite Hl, <- Hk. apply remove_at_app.
  - left. split; [reflexivity|]. right. apply evictIndex_None, Ek.
Qed.

Lemma Boolean_is_pinned (x : ClipboardItem) : Boolean (pinned x) = false -> is_pinned x = false.
Proof. unfold is_pinned. destruct (pinned x) as [[|]|]; simpl; auto. Qed.

Lemma filter_pinned_limitText (m : Z) (l : list ClipboardItem) :
  filter is_pinned (limitText m l) = filter is_pinned l.
Proof.
  destruct (limitText_cases m l) as [[-> _] | [l1 [x [l2 [-> [Hx [_ [_ ->]]]]]]]]; auto.
  rewrite !filter_app. simpl. rewrite (Boolean_is_pinned x Hx). reflexivity.
Qed.

(** One insertion of an unpinned entry, then the eviction step. *)
Lemma length_limitText_cons (m : Z) (x : ClipboardItem) (l : list ClipboardItem) :
  Boolean (pinned x) = false -> m < 999999 ->
  Z.of_nat (length (limitText m (x :: l))) <= Z.max (Z.of_nat (length l)) m.
Proof.
  intros Hx Hm.
  destruct (limitText_cases m (x :: l)) as [[-> [Ho | Hall]] | [l1 [y [l2 [Hl [_ [_ [_ ->]]]]]]]].
  - unfold over_limit in Ho. apply andb_false_iff in Ho as [Ho | Ho].
    + apply Z.ltb_ge in Ho. lia.
    + rewrite Z.gtb_ltb, Z.ltb_ge in Ho. simpl length in Ho |- *. lia.
  - (* impossible: [x] itself is unpinned *)
    specialize (Hall x (or_introl eq_refl)). congruence.
  - assert (Hlen : length (x :: l) = length (l1 ++ y :: l2)) by (rewrite Hl; reflexivity).
    rewrite length_app in *. simpl in Hlen. lia.
Qed.

(** C3 (as stated). With [maxHistoryItems] at 50 the watcher records "A" and
    "B"; the setting is lowered to 1 and "C" is copied: one entry is evicted
    and two unpinned entries remain, above the limit. *)
Lemma eviction_leaves_unpinned_over_limit :
  let w := monitorText 1 3 "C" (monitorText 50 2 "B" (monitorText 50 1 "A" (sample_world []))) in
  map id (clipboardHistory w) = ["3"; "2"] /\
  Z.of_nat (length (clipboardHistory w)) > 1 /\
  forallb (fun y => negb (is_pinned y)) (clipboardHistory w) = true.
Proof. repeat split; reflexivity. Qed.

(** C3 (amended). [limitHistoryItems] never removes an entry with
    [pinned === true]; when the count exceeds a limited maximum it removes the
    entry nearest the tail whose [pinned] is not truthy and removes nothing
    when every entry is pinned (or the list is within the limit).  After the
    insertion of an unpinned entry the count is at most the larger of the
    count before and the maximum: it stays above the maximum only if it
    already was, and then unpinned entries may remain. *)
Theorem eviction_step (m : Z) (w : World) :
  filter is_pinned (clipboardHistory (limitHistoryItems m w)) = filter is_pinned (clipboardHistory w) /\
  ((clipboardHistory (limitHistoryItems m w) = clipboardHistory w /\
    (over_limit m (clipboardHistory w) = false \/
     forall y, In y (clipboardHistory w) -> Boolean (pinned y) = true)) \/
   (exists l1 x l2, clipboardHistory w = l1 ++ x :: l2 /\ Boolean (pinned x) = false /\
                    (forall y, In y l2 -> Boolean (pinned y) = true) /\
                    over_limit m (clipboardHistory w) = true /\
                    clipboardHistory (limitHistoryItems m w) = l1 ++ l2)) /\
  (m < 999999 -> forall x, Boolean (pinned x) = false ->
   Z.of_nat (length (clipboardHistory (limitHistoryItems m (with_history (x :: clipboardHistory w) w))))
   <= Z.max (Z.of_nat (length (clipboardHistory w))) m).
Proof.
  rewrite !limitHistoryItems_history. split; [apply filter_pinned_limitText|]. split.
  - apply limitText_cases.
  - intros Hm x Hx. rewrite limitHistoryItems_history. apply length_limitText_cons; auto.
Qed.

(** ** C4: the size bound *)

Lemma length_insert_desc (a : ClipboardItem) (l : list ClipboardItem) :
  length (insert_desc a l) = S (length l).
Proof.
  induction l as [|b t IH]; simpl; auto. destruct (_ <=? _); simpl; auto.
Qed.

Lemma length_sort_desc (l : list ClipboardItem) : length (sort_desc l) = length l.
Proof. induction l; simpl; rewrite ?length_insert_desc; auto. Qed.

Lemma length_filter_split {A} (f : A -> bool) (l : list A) :
  (length (filter f l) + length (filter (fun x => negb (f x)) l))%nat = length l.
Proof. induction l as [|a t IH]; simpl; auto. destruct (f a); simpl; lia. Qed.

Lemma length_pin_sort (l : list ClipboardItem) : length (pin_sort l) = length l.
Proof.
  unfold pin_sort. rewrite length_app, !length_sort_desc. apply length_filter_split.
Qed.

Lemma length_update_at {A} (k : nat) (f : A -> A) (l : list A) :
  length (update_at k f l) = length l.
Proof. revert k; induction l; intros [|k]; simpl; auto. Qed.

Lemma length_remove_at {A} (k : nat) (l : list A) : (length (remove_at k l) <= length l)%nat.
Proof. revert k; induction l; intros [|k]; simpl; try specialize (IHl k); lia. Qed.

Lemma length_filter_le {A} (f : A -> bool) (l : list A) : (length (filter f l) <= length l)%nat.
Proof. pose proof (length_filter_split f l). lia. Qed.

Lemma length_monitorText (m now : Z) (s : string) (w : World) :
  m < 999999 ->
  Z.of_nat (length (clipboardHistory (monitorText m now s w)))
  <= Z.max (Z.of_nat (length (clipboardHistory w))) m.
Proof.
  intros Hm. destruct (monitorText_history m now s w) as [-> | ->]; [lia|].
  rewrite length_map. apply length_limitText_cons; auto.
Qed.

Lemma length_monitorImage md5 (m now : Z) (img : option (list Byte.byte)) (w : World) :
  m < 999999 ->
  Z.of_nat (length (clipboardHistory (monitorImage md5 m now img w)))
  <= Z.max (Z.of_nat (length (clipboardHistory w))) m.
Proof.
  intros Hm. destruct img as [b|]; [|simpl; lia].
  destruct (monitorImage_history md5 m now b w) as [-> | ->]; [lia|].
  rewrite length_map. apply length_limitText_cons; auto.
Qed.

(** C4 (as stated). A history file of three unpinned entries (saved under a
    larger maximum) is loaded while the maximum is 2: the history holds three
    unpinned entries. *)
Lemma load_ignores_limit :
  let file := [sample_item "3" text "C" 3 false None; sample_item "2" text "B" 2 false None;
               sample_item "1" text "A" 1 false None] in
  let w := mkWorld [] (Some file) [] EmptyString PNone [] in
  Z.of_nat (length (clipboardHistory (loadClipboardHistory w))) > 2 /\
  forallb (fun y => negb (is_pinned y)) (clipboardHistory (loadClipboardHistory w)) = true.
Proof. split; reflexivity. Qed.

(** C4 (amended). With a limited maximum, one watcher tick (a text and an
    image insertion, each followed by one eviction step) never takes the count
    above the larger of the count before and the maximum;
    [delete-clipboard-item], [clearClipboardHistoryKeepPinned] never increase
    it; [toggle-pinned], [set-clipboard-content] and [cleanupUnusedImages]
    keep it; pinned entries are counted.  [loadClipboardHistory] installs the
    file's entries without applying the maximum. *)
Theorem history_length_bounds md5 decodeBase64 (m nowText nowImage : Z) (s : string)
    (img : option (list Byte.byte)) (i : string) (item : ClipboardItem) (r : option string)
    (w : World) :
  m < 999999 ->
  Z.of_nat (length (clipboardHistory (clipboardTick md5 m nowText nowImage s img w)))
  <= Z.max (Z.of_nat (length (clipboardHistory w))) m /\
  (length (clipboardHistory (delete_clipboard_item i w)) <= length (clipboardHistory w))%nat /\
  length (clipboardHistory (toggle_pinned i w)) = length (clipboardHistory w) /\
  (length (clipboardHistory (fst (clearClipboardHistoryKeepPinned w)))
   <= length (clipboardHistory w))%nat /\
  length (clipboardHistory (fst (set_clipboard_content decodeBase64 item r w)))
  = length (clipboardHistory w) /\
  clipboardHistory (cleanupUnusedImages w) = clipboardHistory w.
Proof.
  intros Hm. split.
  { unfold clipboardTick.
    pose proof (length_monitorText m nowText s w Hm).
    pose proof (length_monitorImage md5 m nowImage img (monitorText m nowText s w) Hm). lia. }
  split.
  { unfold delete_clipboard_item. destruct (findIndex _ _); auto.
    rewrite save_history, length_map. apply length_remove_at. }
  split.
  { unfold toggle_pinned. destruct (findIndex _ _); auto.
    rewrite save_history, length_map. cbn [notify emit with_history clipboardHistory].
    rewrite length_pin_sort. apply length_update_at. }
  split.
  { simpl. rewrite length_map. etransitivity; [apply length_filter_le|].
    rewrite length_map. reflexivity. }
  split; [rewrite set_clipboard_content_history; reflexivity|].
  unfold cleanupUnusedImages. destruct (clipboardHistory w) eqn:E; [destruct (historyFile w)|];
    cbn [keep_used with_images clipboardHistory]; congruence.
Qed.

Lemma history_length_bounds_witness :
  let w := sample_world [sample_item "2" text "B" 2 false None; sample_item "1" text "A" 1 false None] in
  0 < 2 < 999999 /\
  Z.of_nat (length (clipboardHistory (clipboardTick (fun _ => "h") 2 3 4 "C" None w))) <= 2.
Proof.
  intros w. split; [lia|].
  pose proof (proj1 (history_length_bounds (fun _ => "h") (fun _ => None) 2 3 4 "C" None "1"
                       (sample_item "9" text "x" 9 false None) None w ltac:(lia))) as H.
  simpl in H |- *. lia.
Defined.

(** ** C8: clearing keeps the pinned entries *)

Lemma pinned_sorted_spec (l : list ClipboardItem) : pinned_sorted l = true <-> PinnedSorted l.
Proof. apply sorted_desc_spec. Qed.

Lemma ps_map_coerce (l : list ClipboardItem) : PinnedSorted l -> PinnedSorted (map coerce l).
Proof.
  unfold PinnedSorted. intros H.
  rewrite (filter_map_coerce (fun b => b)). apply SS_map_coerce; auto.
Qed.

Lemma ps_canon (l : list ClipboardItem) : StronglySorted ord l -> PinnedSorted l.
Proof.
  intros H. unfold PinnedSorted. eapply SS_weaken; [|apply SS_filter, H].
  intros x y Hx Hy Hxy. apply filter_In in Hx as [_ Hx], Hy as [_ Hy].
  unfold ord, ordb, ts_ge in *. rewrite Hx, Hy in Hxy. simpl in Hxy. apply Z.leb_le; auto.
Qed.

Lemma SS_filter_remove_at {A} (R : A -> A -> Prop) (f : A -> bool) (k : nat) (l : list A) :
  StronglySorted R (filter f l) -> StronglySorted R (filter f (remove_at k l)).
Proof.
  revert k. induction l as [|a t IH]; intros [|k] H; simpl in *; auto.
  - destruct (f a); auto. apply StronglySorted_inv in H as [H _]; auto.
  - destruct (f a); [|auto]. simpl. apply StronglySorted_inv in H as [H HF].
    constructor; auto. rewrite Forall_forall in *. intros y Hy. apply HF.
    apply filter_In in Hy as [Hy Hfy]. apply filter_In. split; auto.
    eapply In_remove_at; eauto.
Qed.

Lemma ps_remove_at (k : nat) (l : list ClipboardItem) : PinnedSorted l -> PinnedSorted (remove_at k l).
Proof. apply SS_filter_remove_at. Qed.

Lemma ps_filter (f : ClipboardItem -> bool) (l : list ClipboardItem) :
  PinnedSorted l -> PinnedSorted (filter f l).
Proof. unfold PinnedSorted. rewrite filter_comm. apply SS_filter. Qed.

Lemma ps_insert (m : Z) (x : ClipboardItem) (l : list ClipboardItem) :
  is_pinned x = false -> PinnedSorted l -> PinnedSorted (map coerce (limitText m (x :: l))).
Proof.
  intros Hx H. apply ps_map_coerce. unfold PinnedSorted.
  rewrite filter_pinned_limitText. simpl. rewrite Hx. exact H.
Qed.

Lemma ps_step md5 decodeBase64 (w w' : World) :
  step md5 decodeBase64 w w' -> PinnedSorted (clipboardHistory w) -> PinnedSorted (clipboardHistory w').
Proof.
  intros Hs H. destruct Hs.
  - unfold clipboardTick.
    assert (H1 : PinnedSorted (clipboardHistory (monitorText m nowText currentText w))).
    { destruct (monitorText_history m nowText currentText w) as [-> | ->]; auto.
      apply ps_insert; auto. }
    destruct readImage as [b|]; [|exact H1].
    destruct (monitorImage_history md5 m nowImage b (monitorText m nowText currentText w))
      as [-> | ->]; auto.
    apply ps_insert; auto.
  - unfold delete_clipboard_item. destruct (findIndex _ _); auto.
    apply ps_map_coerce, ps_remove_at, H.
  - unfold toggle_pinned. destruct (findIndex _ _); auto.
    apply ps_map_coerce, ps_canon, canon_pin_sort.
  - simpl. apply ps_map_coerce, ps_filter, ps_map_coerce, H.
  - unfold loadClipboardHistory. destruct (historyFile w); auto.
    apply ps_canon, canon_pin_sort.
  - unfold cleanupUnusedImages. destruct (clipboardHistory w) eqn:E; [destruct (historyFile w)|];
      cbn [keep_used with_images clipboardHistory]; rewrite ?E; auto.
  - rewrite set_clipboard_content_history. exact H.
  - constructor.
Qed.

Lemma ps_reachable md5 decodeBase64 (w : World) :
  reachable md5 decodeBase64 w -> PinnedSorted (clipboardHistory w).
Proof.
  induction 1 as [f imgs s | w w' _ IH Hs]; [constructor|]. eapply ps_step; eauto.
Qed.

(** C8. In every reachable state, [clearClipboardHistoryKeepPinned] returns
    exactly the entries with [pinned === true] after coercion, in their order;
    that list is the new in-memory history and is what the file holds; a
    following [loadClipboardHistory] yields that same list. *)
Theorem clear_then_load md5 decodeBase64 (w : World) :
  reachable md5 decodeBase64 w ->
  snd (clearClipboardHistoryKeepPinned w) = filter is_pinned (map coerce (clipboardHistory w)) /\
  clipboardHistory (fst (clearClipboardHistoryKeepPinned w)) = snd (clearClipboardHistoryKeepPinned w) /\
  historyFile (fst (clearClipboardHistoryKeepPinned w)) = Some (snd (clearClipboardHistoryKeepPinned w)) /\
  clipboardHistory (loadClipboardHistory (fst (clearClipboardHistoryKeepPinned w)))
  = snd (clearClipboardHistoryKeepPinned w).
Proof.
  intros Hr. pose proof (ps_reachable _ _ _ Hr) as Hps.
  set (P := map coerce (filter is_pinned (clipboardHistory w))).
  assert (HP : filter is_pinned (map coerce (clipboardHistory w)) = P).
  { apply filter_map_coerce_inv, is_pinned_coerce. }
  assert (Hret : snd (clearClipboardHistoryKeepPinned w) = P).
  { cbn [clearClipboardHistoryKeepPinned snd saveClipboardHistory emit with_file with_history
         notify clipboardHistory].
    change (fun x => is_pinned x) with is_pinned. rewrite HP. apply map_coerce_idem. }
  assert (Hfile : historyFile (fst (clearClipboardHistoryKeepPinned w))
                  = Some (snd (clearClipboardHistoryKeepPinned w))) by reflexivity.
  rewrite HP, Hret. rewrite Hret in Hfile.
  split; [reflexivity|]. split; [rewrite <- Hret; reflexivity|]. split; [exact Hfile|].
  unfold loadClipboardHistory. rewrite Hfile. cbn [with_history clipboardHistory].
  assert (HR : forall y, In y P -> is_pinned y = true).
  { intros y Hy. apply in_map_iff in Hy as [z [<- Hz]]. rewrite is_pinned_coerce.
    apply filter_In in Hz; tauto. }
  unfold P at 1. rewrite map_coerce_idem. fold P.
  unfold pin_sort.
  rewrite (forallb_filter_id is_pinned P) by (apply forallb_forall; auto).
  rewrite (filter_ext_in (fun x => negb (is_pinned x)) (fun _ => false) P)
    by (intros y Hy; rewrite HR; auto).
  rewrite filter_false, app_nil_r. apply sort_desc_id.
  apply SS_map_coerce; [apply ts_ge_coerce | exact Hps].
Qed.

Lemma clear_then_load_witness :
  let w0 := mkWorld [] (Some [sample_item "1" text "A" 2 true None;
                             sample_item "2" text "B" 3 false None;
                             sample_item "3" text "C" 1 true None]) [] EmptyString PNone [] in
  let w := clipboardTick (fun _ => "h") 50 5 5 "D" None (loadClipboardHistory w0) in
  reachable (fun _ => "h") (fun _ => None) w /\
  map id (clipboardHistory w) = ["5"; "1"; "3"; "2"] /\
  map id (snd (clearClipboardHistoryKeepPinned w)) = ["1"; "3"] /\
  clipboardHistory (loadClipboardHistory (fst (clearClipboardHistoryKeepPinned w)))
  = snd (clearClipboardHistoryKeepPinned w).
Proof.
  intros w0 w.
  assert (Hr : reachable (fun _ => "h") (fun _ => None) w).
  { apply (ReachStep _ _ (loadClipboardHistory w0)).
    - apply (ReachStep _ _ w0); [apply ReachInit | apply StepLoad].
    - apply StepTick. }
  split; [exact Hr|]. split; [reflexivity|]. split; [reflexivity|].
  exact (proj2 (proj2 (proj2 (clear_then_load (fun _ => "h") (fun _ => None) w Hr)))).
Defined.

(** * Further properties of the code *)

(** ** Permutations *)

Lemma Perm_insert_desc (a : ClipboardItem) (l : list ClipboardItem) :
  Permutation (insert_desc a l) (a :: l).
Proof.
  induction l as [|b t IH]; cbn [insert_desc]; [reflexivity|].
  destruct (timestamp b <=? timestamp a); [reflexivity|].
  rewrite IH. apply perm_swap.
Qed.

Lemma Perm_sort_desc (l : list ClipboardItem) : Permutation (sort_desc l) l.
Proof.
  induction l as [|a t IH]; simpl; [reflexivity|].
  rewrite Perm_insert_desc, IH. reflexivity.
Qed.

Lemma Perm_partition {A} (f : A -> bool) (l : list A) :
  Permutation (filter f l ++ filter (fun x => negb (f x)) l) l.
Proof.
  induction l as [|a t IH]; simpl; [reflexivity|].
  destruct (f a); simpl.
  - constructor. exact IH.
  - rewrite <- Permutation_middle. constructor. exact IH.
Qed.

Lemma Perm_pin_sort (l : list ClipboardItem) : Permutation (pin_sort l) l.
Proof.
  unfold pin_sort. rewrite !Perm_sort_desc. apply Perm_partition.
Qed.

(** ** The renderer store *)

Lemma setClipboardHistory_pin_sort (h : list ClipboardItem) :
  setClipboardHistory h = pin_sort (map coerce h).
Proof. reflexivity. Qed.

(** X1: [setClipboardHistory] puts any list it receives into the canonical
    order (pinned first, each group newest first), keeps exactly the received
    entries ([pinned] made strict), is idempotent, and leaves a list that is
    already canonical in its order. *)
Theorem renderer_store_order (h : list ClipboardItem) :
  canonical (setClipboardHistory h) = true /\
  Permutation (setClipboardHistory h) (map coerce h) /\
  setClipboardHistory (setClipboardHistory h) = setClipboardHistory h /\
  (canonical h = true -> setClipboardHistory h = map coerce h).
Proof.
  rewrite !setClipboardHistory_pin_sort. split; [|split; [|split]].
  - apply canonical_spec, canon_pin_sort.
  - apply Perm_pin_sort.
  - rewrite map_coerce_pin_sort, map_coerce_idem. apply pin_sort_id, canon_pin_sort.
  - intros H. apply pin_sort_id, canon_map_coerce, canonical_spec, H.
Qed.

(** ** Deleting an id that several entries carry *)

Lemma filter_filter_neg {A} (p : A -> bool) (l : list A) :
  filter p (filter (fun x => negb (p x)) l) = [].
Proof. induction l as [|a t IH]; simpl; auto. destruct (p a) eqn:E; simpl; rewrite ?E; auto. Qed.

Lemma length_filter_remove_first {A} (p : A -> bool) (l : list A) (k : nat) :
  findIndex p l = Some k -> length (filter p (remove_at k l)) = (length (filter p l) - 1)%nat.
Proof.
  revert k. induction l as [|a t IH]; intros k; simpl; [discriminate|].
  destruct (p a) eqn:E.
  - intros H. injection H as <-. simpl. lia.
  - destruct (findIndex p t) eqn:F; simpl; [|discriminate].
    intros H. injection H as <-. simpl. rewrite E. apply IH. reflexivity.
Qed.

(** X2: [delete-clipboard-item] removes only the first entry that carries the
    id, so other entries with the same id stay in the main process; the
    renderer store, after the ['clipboard-updated'] list of the main process
    has been installed, drops every entry with that id. *)
Theorem delete_main_vs_renderer (i : string) (w : World) :
  length (filter (fun x => String.eqb (id x) i) (clipboardHistory (delete_clipboard_item i w)))
  = (length (filter (fun x => String.eqb (id x) i) (clipboardHistory w)) - 1)%nat /\
  filter (fun x => String.eqb (id x) i)
         (deleteItem i (setClipboardHistory (clipboardHistory (delete_clipboard_item i w)))) = [].
Proof.
  split.
  - unfold delete_clipboard_item.
    destruct (findIndex _ (clipboardHistory w)) as [k|] eqn:F.
    + cbn [saveClipboardHistory notify emit with_file with_history clipboardHistory].
      rewrite (filter_map_coerce_inv (fun x => String.eqb (id x) i)) by reflexivity.
      rewrite length_map. apply length_filter_remove_first, F.
    + cbv zeta. rewrite (filter_ext_in _ (fun _ => false) (clipboardHistory w))
        by (intros x Hx; apply (findIndex_None _ _ F x Hx)).
      rewrite filter_false. reflexivity.
  - unfold deleteItem. rewrite filter_filter_neg. reflexivity.
Qed.

(** ** In-memory [pinned] values are strict booleans *)

Lemma strict_map_coerce (l : list ClipboardItem) (x : ClipboardItem) :
  In x (map coerce l) -> pinned x = Some true \/ pinned x = Some false.
Proof.
  intros H. apply in_map_iff in H as [y [<- _]]. simpl. destruct (is_pinned y); auto.
Qed.

Lemma strict_step md5 decodeBase64 (w w' : World) :
  step md5 decodeBase64 w w' ->
  (forall x, In x (clipboardHistory w) -> pinned x = Some true \/ pinned x = Some false) ->
  forall x, In x (clipboardHistory w') -> pinned x = Some true \/ pinned x = Some false.
Proof.
  intros Hs H. destruct Hs.
  - unfold clipboardTick.
    assert (H1 : forall x, In x (clipboardHistory (monitorText m nowText currentText w)) ->
                           pinned x = Some true \/ pinned x = Some false).
    { destruct (monitorText_history m nowText currentText w) as [-> | ->];
        [exact H | apply strict_map_coerce]. }
    destruct readImage as [b|]; [|exact H1].
    destruct (monitorImage_history md5 m nowImage b (monitorText m nowText currentText w))
      as [-> | ->]; [exact H1 | apply strict_map_coerce].
  - unfold delete_clipboard_item. destruct (findIndex _ _); [apply strict_map_coerce | exact H].
  - unfold toggle_pinned. destruct (findIndex _ _); [apply strict_map_coerce | exact H].
  - apply strict_map_coerce.
  - unfold loadClipboardHistory. destruct (historyFile w) as [f|]; [|exact H].
    intros x Hx. apply (strict_map_coerce f).
    apply (Permutation_in _ (Perm_pin_sort _) Hx).
  - unfold cleanupUnusedImages. destruct (clipboardHistory w) eqn:E; [destruct (historyFile w)|];
      cbn [keep_used with_images clipboardHistory]; rewrite ?E; auto.
  - rewrite set_clipboard_content_history. exact H.
  - intros x [].
Qed.

(** X3: in every reachable state each entry of the in-memory history has a
    [pinned] that is [true] or [false], never absent: every path that changes
    the list ends in a save or a load, both of which coerce it. *)
Theorem pinned_always_strict md5 decodeBase64 (w : World) :
  reachable md5 decodeBase64 w ->
  forall x, In x (clipboardHistory w) -> pinned x = Some true \/ pinned x = Some false.
Proof.
  induction 1 as [f imgs s | w w' _ IH Hs]; [intros x []|].
  eapply strict_step; eauto.
Qed.

Lemma pinned_always_strict_witness :
  let w := clipboardTick (fun _ => "h") 50 1 1 "A" None
             (mkWorld [] (Some [mkItem "0" text "B" 0 None None None]) [] EmptyString PNone []) in
  reachable (fun _ => "h") (fun _ => None) w /\
  (forall x, In x (clipboardHistory w) -> pinned x = Some true \/ pinned x = Some false).
Proof.
  intros w.
  assert (Hr : reachable (fun _ => "h") (fun _ => None) w).
  { eapply ReachStep; [apply ReachInit | apply StepTick]. }
  split; [exact Hr | exact (pinned_always_strict _ _ w Hr)].
Defined.

(** ** The text check of a tick records a text once *)

(** X4: the text check compares with the last text it saw, so reading the same
    clipboard text on a later tick changes nothing (at any time, with any
    maximum); only the last text is compared, not the history. *)
Theorem monitorText_once (m t1 t2 : Z) (s : string) (w : World) :
  monitorText m t2 s (monitorText m t1 s w) = monitorText m t1 s w.
Proof.
  unfold monitorText at 2. destruct (negb (String.eqb s EmptyString) && negb (String.eqb s (lastClipboardContent w))) eqn:E.
  - unfold monitorText. rewrite E.
    cbn [saveClipboardHistory notify emit with_file with_history with_last lastClipboardContent].
    rewrite String.eqb_refl, andb_false_r. reflexivity.
  - unfold monitorText. rewrite E. reflexivity.
Qed.

(** ** A full history of pinned entries drops new entries *)

Lemma findIndex_app_None {A} (p : A -> bool) (l m : list A) :
  findIndex p l = None -> findIndex p (l ++ m) = option_map (Nat.add (length l)) (findIndex p m).
Proof.
  induction l as [|a t IH]; simpl; intros H.
  - destruct (findIndex p m); reflexivity.
  - destruct (p a); [discriminate|]. destruct (findIndex p t); [discriminate|].
    rewrite IH by reflexivity. destruct (findIndex p m); reflexivity.
Qed.

Lemma evictIndex_head (x : ClipboardItem) (h : list ClipboardItem) :
  Boolean (pinned x) = false -> (forall y, In y h -> Boolean (pinned y) = true) ->
  evictIndex (x :: h) = Some O.
Proof.
  intros Hx Hh. unfold evictIndex. cbn [rev].
  rewrite findIndex_app_None.
  - simpl. rewrite Hx. simpl. f_equal. rewrite length_rev. lia.
  - apply findIndex_None_intro. destruct (existsb _ _) eqn:E; [|reflexivity].
    apply existsb_exists in E as [y [Hy Hp]]. apply in_rev in Hy.
    rewrite Hh in Hp by exact Hy. discriminate.
Qed.

Lemma over_limit_full (m : Z) (x : ClipboardItem) (h : list ClipboardItem) :
  m < 999999 -> m <= Z.of_nat (length h) -> over_limit m (x :: h) = true.
Proof.
  intros H1 H2. unfold over_limit. apply andb_true_intro. split.
  - apply Z.ltb_lt. exact H1.
  - rewrite Z.gtb_ltb. apply Z.ltb_lt. simpl length. lia.
Qed.

Lemma limitText_full (m : Z) (x : ClipboardItem) (h : list ClipboardItem) :
  m < 999999 -> m <= Z.of_nat (length h) ->
  Boolean (pinned x) = false -> (forall y, In y h -> Boolean (pinned y) = true) ->
  limitText m (x :: h) = h.
Proof.
  intros H1 H2 Hx Hh. unfold limitText. rewrite over_limit_full by assumption.
  rewrite evictIndex_head by assumption. reflexivity.
Qed.

Lemma filter_all_true {A} (f : A -> bool) (l : list A) :
  (forall x, In x l -> f x = true) -> filter f l = l.
Proof.
  induction l as [|a t IH]; simpl; intros H; auto.
  rewrite H by auto. rewrite IH by auto. reflexivity.
Qed.

Lemma unlink_absent (f : string) (w : World) :
  file_exists f w = false -> filter (fun p => negb (String.eqb (fst p) f)) (images w) = images w.
Proof.
  intros H. apply filter_all_true. intros p Hp.
  destruct (String.eqb (fst p) f) eqn:E; [|reflexivity].
  unfold file_exists in H. rewrite (proj2 (existsb_exists _ _)) in H; [discriminate|].
  exists p. auto.
Qed.

Lemma image_ref_used (p : string) (l : list ClipboardItem) :
  existsb (fun x => kind_eqb (type x) image &&
                    match imagePath x with Some q => String.eqb q p | None => false end) l = true ->
  In p (usedImages l).
Proof.
  induction l as [|a t IH]; simpl; [discriminate|].
  destruct (type a), (imagePath a) as [q|]; simpl; auto.
  destruct (String.eqb q p) eqn:E; simpl; auto.
  apply String.eqb_eq in E. subst. auto.
Qed.

(** X5: when the maximum is limited and reached by entries that are all pinned,
    a new clipboard text or image is evicted in the same tick: the history
    keeps its entries (coerced), the text still becomes the last text seen, and
    the image file just written is deleted again (when no file of that name
    existed and no entry refers to it). *)
Theorem new_entry_dropped_when_full_of_pins md5 (m now : Z) (s : string)
    (b : list Byte.byte) (w : World) :
  m < 999999 -> m <= Z.of_nat (length (clipboardHistory w)) ->
  (forall y, In y (clipboardHistory w) -> Boolean (pinned y) = true) ->
  (s <> EmptyString -> s <> lastClipboardContent w ->
   clipboardHistory (monitorText m now s w) = map coerce (clipboardHistory w) /\
   lastClipboardContent (monitorText m now s w) = s) /\
  (find (fun x => kind_eqb (type x) image && String.eqb (content x) (md5 b))
        (clipboardHistory w) = None ->
   file_exists (md5 b ++ ".png") w = false ->
   ~ In (md5 b ++ ".png")%string (usedImages (clipboardHistory w)) ->
   clipboardHistory (monitorImage md5 m now (Some b) w) = map coerce (clipboardHistory w) /\
   images (monitorImage md5 m now (Some b) w) = images w).
Proof.
  intros H1 H2 Hh. split.
  - intros Hs Hl. unfold monitorText.
    rewrite (proj2 (String.eqb_neq _ _) Hs), (proj2 (String.eqb_neq _ _) Hl). simpl.
    rewrite limitText_full; auto.
  - intros Hf He Hu. unfold monitorImage. rewrite Hf. unfold saveImageToFile. rewrite He.
    cbv zeta. set (fn := (md5 b ++ ".png")%string).
    set (x := mkItem (toString now) image (md5 b) now (Some "Image") (Some false) (Some fn)).
    set (w1 := with_history (x :: clipboardHistory w) (with_images ((fn, b) :: images w) w)).
    assert (Hlim : limitHistoryItems m w1 = with_history (clipboardHistory w) (unlink fn w1)).
    { unfold limitHistoryItems.
      replace (clipboardHistory w1) with (x :: clipboardHistory w) by reflexivity.
      rewrite over_limit_full by assumption. rewrite evictIndex_head by auto.
      cbn [nth_error remove_at x type imagePath].
      destruct (existsb _ (clipboardHistory w)) eqn:E.
      { exfalso. apply Hu. exact (image_ref_used _ _ E). }
      replace (file_exists fn w1) with true.
      2:{ unfold file_exists, w1. simpl. rewrite String.eqb_refl. reflexivity. }
      reflexivity. }
    change (with_history (x :: clipboardHistory (with_images ((fn, b) :: images w) w))
              (with_images ((fn, b) :: images w) w)) with w1.
    rewrite Hlim. split; [reflexivity|].
    cbn [saveClipboardHistory notify emit with_file with_history unlink with_images images w1].
    simpl. rewrite String.eqb_refl. simpl. apply unlink_absent. exact He.
Qed.

Lemma new_entry_dropped_when_full_of_pins_witness :
  let w := sample_world [sample_item "1" text "A" 1 true None] in
  1 < 999999 /\ 1 <= Z.of_nat (length (clipboardHistory w)) /\
  clipboardHistory (monitorText 1 5 "B" w) = map coerce (clipboardHistory w).
Proof.
  intros w.
  assert (Hh : forall y, In y (clipboardHistory w) -> Boolean (pinned y) = true).
  { intros y [<-|[]]. reflexivity. }
  split; [lia|]. split; [simpl; lia|].
  refine (proj1 (proj1 (new_entry_dropped_when_full_of_pins (fun _ => "h") 1 5 "B" [] w
                          ltac:(lia) ltac:(simpl; lia) Hh) _ _)); discriminate.
Defined.

(** ** A tick before the window is first shown overwrites the history file *)

Lemma over_limit_false (m : Z) (l : list ClipboardItem) :
  Z.of_nat (length l) <= m -> over_limit m l = false.
Proof.
  intros H. unfold over_limit. destruct (m <? 999999); [|reflexivity]. simpl.
  rewrite Z.gtb_ltb. apply Z.ltb_ge. exact H.
Qed.

Lemma limitText_under (m : Z) (l : list ClipboardItem) :
  Z.of_nat (length l) <= m -> limitText m l = l.
Proof. intros H. unfold limitText. rewrite over_limit_false by exact H. reflexivity. Qed.

Lemma limitHistoryItems_under (m : Z) (w : World) :
  Z.of_nat (length (clipboardHistory w)) <= m -> limitHistoryItems m w = w.
Proof. intros H. unfold limitHistoryItems. rewrite over_limit_false by exact H. reflexivity. Qed.

(** X6: the in-memory history starts empty and is only loaded from the file
    when the window is shown; a new clipboard text seen before that is saved
    as the whole history, so the file then holds that one entry (whatever it
    held before) and showing the window does not bring the old entries back. *)
Theorem tick_before_show_overwrites_file (m now : Z) (s : string) (w : World) :
  clipboardHistory w = [] -> s <> EmptyString -> s <> lastClipboardContent w -> 1 <= m ->
  let x := mkItem (toString now) text s now (Some (substring 0 100 s)) (Some false) None in
  historyFile (monitorText m now s w) = Some [x] /\
  clipboardHistory (showWindow (monitorText m now s w)) = [x].
Proof.
  intros H0 Hs Hl Hm x.
  assert (E : monitorText m now s w =
              saveClipboardHistory (notify (with_history [x] (with_last s w)))).
  { unfold monitorText.
    rewrite (proj2 (String.eqb_neq _ _) Hs), (proj2 (String.eqb_neq _ _) Hl).
    cbn [negb andb]. rewrite limitText_under.
    - cbn [clipboardHistory with_last]. rewrite H0. reflexivity.
    - cbn [clipboardHistory with_last]. rewrite H0. simpl. lia. }
  rewrite E. split; reflexivity.
Qed.

Lemma tick_before_show_overwrites_file_witness :
  let w := mkWorld [] (Some [sample_item "1" text "A" 1 true None]) [] EmptyString PNone [] in
  historyFile w = Some [sample_item "1" text "A" 1 true None] /\
  historyFile (monitorText 50 2 "B" w) =
    Some [mkItem (toString 2) text "B" 2 (Some (substring 0 100 "B")) (Some false) None].
Proof.
  intros w. split; [reflexivity|].
  exact (proj1 (tick_before_show_overwrites_file 50 2 "B" w
                  ltac:(reflexivity) ltac:(discriminate) ltac:(discriminate) ltac:(lia))).
Defined.

(** ** Toggling a pin *)

(** X7: toggling the pin of an entry that exists keeps the same entries (the
    toggled one with its [pinned] negated, all coerced to booleans) and leaves
    the list in the canonical order: pinned entries first, newer first. *)
Theorem toggle_pinned_permutation (i : string) (w : World) (k : nat) :
  findIndex (fun x => String.eqb (id x) i) (clipboardHistory w) = Some k ->
  Permutation (clipboardHistory (toggle_pinned i w))
              (map coerce (update_at k flip (clipboardHistory w))) /\
  StronglySorted ord (clipboardHistory (toggle_pinned i w)).
Proof.
  intros H. unfold toggle_pinned. rewrite H.
  cbn [saveClipboardHistory notify emit with_file with_history clipboardHistory].
  split.
  - apply Permutation_map, Perm_pin_sort.
  - apply canon_map_coerce, canon_pin_sort.
Qed.

Lemma toggle_pinned_permutation_witness :
  let w := sample_world [sample_item "1" text "A" 2 false None;
                         sample_item "2" text "B" 1 false None] in
  findIndex (fun x => String.eqb (id x) "2") (clipboardHistory w) = Some 1%nat /\
  Permutation (clipboardHistory (toggle_pinned "2" w))
              (map coerce (update_at 1 flip (clipboardHistory w))).
Proof.
  intros w. split; [reflexivity|].
  exact (proj1 (toggle_pinned_permutation "2" w 1 ltac:(reflexivity))).
Defined.

(** ** Two entries of one tick share their id *)

Lemma find_image_map_coerce (c : string) (h : list ClipboardItem) :
  find (fun x => kind_eqb (type x) image && String.eqb (content x) c) (map coerce h) =
  option_map coerce (find (fun x => kind_eqb (type x) image && String.eqb (content x) c) h).
Proof.
  induction h as [|a t IH]; simpl; [reflexivity|].
  destruct (kind_eqb (type a) image && String.eqb (content a) c); simpl; auto.
Qed.

(** X8: the id of an entry is [Date.now().toString()]; when one tick sees a
    new text and a new image in the same millisecond and nothing is evicted,
    the two new entries at the head of the history have the same id. *)
Theorem same_millisecond_same_id md5 (m t : Z) (s : string) (b : list Byte.byte) (w : World) :
  s <> EmptyString -> s <> lastClipboardContent w ->
  find (fun x => kind_eqb (type x) image && String.eqb (content x) (md5 b))
       (clipboardHistory w) = None ->
  Z.of_nat (length (clipboardHistory w)) + 2 <= m ->
  map id (firstn 2 (clipboardHistory (clipboardTick md5 m t t s (Some b) w))) =
  [toString t; toString t].
Proof.
  intros Hs Hl Hf Hm. unfold clipboardTick, monitorText.
  rewrite (proj2 (String.eqb_neq _ _) Hs), (proj2 (String.eqb_neq _ _) Hl).
  cbn [negb andb]. rewrite limitText_under
    by (cbn [clipboardHistory with_last length]; lia).
  unfold monitorImage.
  cbn [clipboardHistory saveClipboardHistory notify emit with_file with_history with_last map].
  cbn [find coerce set_pinned type kind_eqb andb].
  rewrite find_image_map_coerce, Hf. cbn [option_map].
  unfold saveImageToFile.
  destruct (file_exists _ _); cbv zeta;
    (rewrite limitHistoryItems_under;
     [reflexivity | cbn [clipboardHistory with_images with_history emit with_file
                         saveClipboardHistory notify with_last]; simpl length;
                    rewrite length_map; lia]).
Qed.

Lemma same_millisecond_same_id_witness :
  let w := sample_world [] in
  map id (firstn 2 (clipboardHistory
                      (clipboardTick (fun _ => "h") 50 7 7 "A" (Some [Byte.x00]) w))) =
  [toString 7; toString 7].
Proof.
  intros w.
  exact (same_millisecond_same_id (fun _ => "h") 50 7 "A" [Byte.x00] w
           ltac:(discriminate) ltac:(discriminate) ltac:(reflexivity) ltac:(simpl; lia)).
Defined.

(** ** The content-addressed image store *)

(** X9: [saveImageToFile] names the file [<md5>.png]; loading that name gives
    back the bytes just saved, or, when a file of that name already existed,
    the bytes of that file (it is not rewritten); every other file is as
    before. *)
Theorem saveImageToFile_roundtrip md5 (b : list Byte.byte) (w : World) :
  let fn := (md5 b ++ ".png")%string in
  snd (saveImageToFile md5 b w) = fn /\
  loadImageFromFile (snd (saveImageToFile md5 b w)) (fst (saveImageToFile md5 b w)) =
    (if file_exists fn w then loadImageFromFile fn w else Some b) /\
  (forall f, f <> fn -> loadImageFromFile f (fst (saveImageToFile md5 b w)) = loadImageFromFile f w).
Proof.
  intros fn. unfold saveImageToFile. fold fn.
  destruct (file_exists fn w); cbn [fst snd]; split; auto; split; auto.
  - unfold loadImageFromFile. simpl. rewrite String.eqb_refl. reflexivity.
  - intros f Hf. unfold loadImageFromFile. simpl.
    destruct (String.eqb fn f) eqn:E; [|reflexivity].
    apply String.eqb_eq in E. congruence.
Qed.

(** X10: after a tick copies a new image (no entry with its hash, no file of
    that name, and room in the history), the new entry is at the head of the
    history, and pasting it puts exactly the copied bytes back on the OS
    clipboard. *)
Theorem copied_image_pastes_back md5 decodeBase64 (m now : Z) (b : list Byte.byte)
    (r : option string) (w : World) :
  find (fun x => kind_eqb (type x) image && String.eqb (content x) (md5 b))
       (clipboardHistory w) = None ->
  file_exists (md5 b ++ ".png") w = false ->
  Z.of_nat (length (clipboardHistory w)) < m ->
  let w' := monitorImage md5 m now (Some b) w in
  exists x, hd_error (clipboardHistory w') = Some x /\ type x = image /\
            imagePath x = Some (md5 b ++ ".png")%string /\
            set_clipboard_content decodeBase64 x r w' = (with_os (PImage b) w', PasteResultSuccess).
Proof.
  intros Hf He Hm w'. subst w'. unfold monitorImage. rewrite Hf.
  unfold saveImageToFile. rewrite He. cbv zeta.
  rewrite limitHistoryItems_under
    by (cbn [clipboardHistory with_images with_history length]; lia).
  eexists. split; [reflexivity|]. split; [reflexivity|]. split; [reflexivity|].
  unfold set_clipboard_content. cbn [type imagePath coerce set_pinned].
  unfold loadImageFromFile.
  cbn [images saveClipboardHistory notify emit with_file with_history with_images].
  cbn [find fst]. rewrite String.eqb_refl. reflexivity.
Qed.

Lemma copied_image_pastes_back_witness :
  exists x, hd_error (clipboardHistory
                        (monitorImage (fun _ => "h") 50 3 (Some [Byte.x01]) (sample_world []))) = Some x /\
            set_clipboard_content (fun _ => None) x None
              (monitorImage (fun _ => "h") 50 3 (Some [Byte.x01]) (sample_world [])) =
            (with_os (PImage [Byte.x01])
               (monitorImage (fun _ => "h") 50 3 (Some [Byte.x01]) (sample_world [])),
             PasteResultSuccess).
Proof.
  destruct (copied_image_pastes_back (fun _ => "h") (fun _ => None) 50 3 [Byte.x01] None
              (sample_world []) ltac:(reflexivity) ltac:(reflexivity) ltac:(simpl; lia))
    as [x [H1 [_ [_ H2]]]].
  exists x. split; assumption.
Defined.

(** ** Clean-up of the image directory *)

Lemma In_keep_used (u : list string) (w : World) (p : string * list Byte.byte) :
  In p (images (keep_used u w)) <-> In p (images w) /\ In (fst p) u.
Proof.
  unfold keep_used. cbn [images with_images]. rewrite filter_In, existsb_exists.
  split.
  - intros [H1 [q [Hq E]]]. apply String.eqb_eq in E. subst. auto.
  - intros [H1 H2]. split; [exact H1|]. exists (fst p). split; [exact H2|]. apply String.eqb_refl.
Qed.

(** X11: [cleanupUnusedImages] keeps exactly the image files an entry refers
    to: the entries in memory, or, while the in-memory history is empty,
    those of the history file; with neither it deletes nothing. *)
Theorem cleanup_keeps_exactly_referenced (w : World) (p : string * list Byte.byte) :
  (clipboardHistory w <> [] ->
   (In p (images (cleanupUnusedImages w)) <->
    In p (images w) /\ In (fst p) (usedImages (clipboardHistory w)))) /\
  (forall hf, clipboardHistory w = [] -> historyFile w = Some hf ->
   (In p (images (cleanupUnusedImages w)) <-> In p (images w) /\ In (fst p) (usedImages hf))) /\
  (clipboardHistory w = [] -> historyFile w = None -> cleanupUnusedImages w = w).
Proof.
  unfold cleanupUnusedImages. split; [|split].
  - intros H. destruct (clipboardHistory w) as [|a t] eqn:E; [congruence|].
    apply In_keep_used.
  - intros hf H Hf. rewrite H, Hf. apply In_keep_used.
  - intros H Hf. rewrite H, Hf. reflexivity.
Qed.

Lemma cleanup_keeps_exactly_referenced_witness :
  let w := mkWorld [] (Some [sample_item "1" image "h" 1 false (Some "h.png")])
                   [("h.png", []); ("g.png", [])] EmptyString PNone [] in
  images (cleanupUnusedImages w) = [("h.png", [])] /\
  (In ("h.png", []) (images (cleanupUnusedImages w)) <->
   In ("h.png", []) (images w) /\ In "h.png" (usedImages [sample_item "1" image "h" 1 false (Some "h.png")])).
Proof.
  intros w. split; [reflexivity|].
  exact (proj1 (proj2 (cleanup_keeps_exactly_referenced w ("h.png", [])))
           _ ltac:(reflexivity) ltac:(reflexivity)).
Defined.

Lemma filter_idem {A} (f : A -> bool) (l : list A) : filter f (filter f l) = filter f l.
Proof.
  induction l as [|a t IH]; simpl; [reflexivity|].
  destruct (f a) eqn:E; simpl; [rewrite E, IH|]; auto.
Qed.

(** X12: running the image clean-up twice is the same as running it once. *)
Theorem cleanup_idempotent (w : World) :
  cleanupUnusedImages (cleanupUnusedImages w) = cleanupUnusedImages w.
Proof.
  destruct w as [h f i l o e].
  destruct h as [|a t]; [destruct f as [hf|]|];
    cbv [cleanupUnusedImages keep_used with_images clipboardHistory historyFile images
         lastClipboardContent osClipboard events];
    rewrite ?filter_idem; reflexivity.
Qed.

(** ** Eviction never deletes a file still referenced *)

Lemma used_image_ref (p : string) (l : list ClipboardItem) :
  In p (usedImages l) ->
  existsb (fun x => kind_eqb (type x) image &&
                    match imagePath x with Some q => String.eqb q p | None => false end) l = true.
Proof.
  induction l as [|a t IH]; simpl; [intros []|].
  destruct (type a), (imagePath a) as [q|]; simpl; auto.
  intros [E|H]; [subst; rewrite String.eqb_refl; reflexivity|].
  rewrite IH by exact H. apply orb_true_r.
Qed.

(** X13: [limitHistoryItems] either leaves the image directory as it is or
    deletes the one file of the evicted entry, and that file is referenced by
    no entry of the history that remains. *)
Theorem limitHistoryItems_keeps_referenced (m : Z) (w : World) :
  images (limitHistoryItems m w) = images w \/
  exists p, images (limitHistoryItems m w) =
              filter (fun q => negb (String.eqb (fst q) p)) (images w) /\
            ~ In p (usedImages (clipboardHistory (limitHistoryItems m w))).
Proof.
  unfold limitHistoryItems.
  destruct (over_limit m (clipboardHistory w)); [|left; reflexivity].
  destruct (evictIndex (clipboardHistory w)) as [k|]; [|left; reflexivity].
  destruct (nth_error (clipboardHistory w) k) as [x|]; [|left; reflexivity].
  destruct (type x); [left; reflexivity|].
  destruct (imagePath x) as [p|]; [|left; reflexivity].
  destruct (negb _ && file_exists p w) eqn:E; [|left; reflexivity].
  right. exists p. split; [reflexivity|].
  apply andb_true_iff in E as [E _]. apply negb_true_iff in E.
  cbn [clipboardHistory with_history]. intros Hin.
  rewrite used_image_ref in E by exact Hin. discriminate.
Qed.

(** ** Settings: reading, merging and writing *)

Lemma obj_get_set (k : string) (v : Json) (o : obj) (k' : string) :
  obj_get (obj_set k v o) k' = if String.eqb k k' then Some v else obj_get o k'.
Proof.
  induction o as [|[k0 v0] t IH]; simpl; [destruct (String.eqb k k'); reflexivity|].
  destruct (String.eqb k0 k) eqn:E1.
  - apply String.eqb_eq in E1. subst k0. simpl. destruct (String.eqb k k'); reflexivity.
  - simpl. destruct (String.eqb k0 k') eqn:E2.
    + apply String.eqb_eq in E2. subst k'. rewrite String.eqb_sym, E1. reflexivity.
    + exact IH.
Qed.

Lemma obj_get_app (l1 l2 : obj) (k : string) :
  obj_get (l1 ++ l2) k = match obj_get l1 k with Some v => Some v | None => obj_get l2 k end.
Proof.
  induction l1 as [|[k0 v0] t IH]; simpl; [reflexivity|].
  destruct (String.eqb k0 k); [reflexivity | exact IH].
Qed.

Lemma obj_get_assign (o props : obj) (k : string) :
  obj_get (assign o props) k =
  match obj_get (rev props) k with Some v => Some v | None => obj_get o k end.
Proof.
  revert o. induction props as [|[k0 v0] t IH]; intros o; [reflexivity|].
  change (assign o ((k0, v0) :: t)) with (assign (obj_set k0 v0 o) t).
  rewrite IH. cbn [rev]. rewrite obj_get_app, obj_get_set. simpl.
  destruct (obj_get (rev t) k); [reflexivity|].
  destruct (String.eqb k0 k); reflexivity.
Qed.

Lemma In_keys_set (k : string) (v : Json) (o : obj) (k' : string) :
  In k' (map fst (obj_set k v o)) <-> k' = k \/ In k' (map fst o).
Proof.
  induction o as [|[k0 v0] t IH]; simpl; [intuition congruence|].
  destruct (String.eqb k0 k) eqn:E.
  - apply String.eqb_eq in E. subst k0. simpl. intuition congruence.
  - simpl. rewrite IH. tauto.
Qed.

Lemma NoDup_set (k : string) (v : Json) (o : obj) :
  NoDup (map fst o) -> NoDup (map fst (obj_set k v o)).
Proof.
  induction o as [|[k0 v0] t IH]; simpl; intros H.
  - constructor; [intros []|constructor].
  - inversion H as [|? ? Hn Ht]; subst.
    destruct (String.eqb k0 k) eqn:E; simpl; constructor; auto.
    rewrite In_keys_set. intros [->|Hi]; [rewrite String.eqb_refl in E; discriminate | tauto].
Qed.

Lemma NoDup_assign (o props : obj) : NoDup (map fst o) -> NoDup (map fst (assign o props)).
Proof.
  revert o. induction props as [|[k0 v0] t IH]; intros o H; [exact H|].
  change (assign o ((k0, v0) :: t)) with (assign (obj_set k0 v0 o) t).
  apply IH, NoDup_set, H.
Qed.

Lemma obj_get_notin (o : obj) (k : string) : ~ In k (map fst o) -> obj_get o k = None.
Proof.
  induction o as [|[k0 v0] t IH]; simpl; intros H; [reflexivity|].
  destruct (String.eqb k0 k) eqn:E; [apply String.eqb_eq in E; tauto|]. auto.
Qed.

Lemma obj_get_rev (o : obj) (k : string) : NoDup (map fst o) -> obj_get (rev o) k = obj_get o k.
Proof.
  induction o as [|[k0 v0] t IH]; simpl; intros H; [reflexivity|].
  inversion H as [|? ? Hn Ht]; subst.
  rewrite obj_get_app, IH by exact Ht. simpl.
  destruct (String.eqb k0 k) eqn:E.
  - apply String.eqb_eq in E. subst k0. rewrite obj_get_notin by exact Hn. reflexivity.
  - destruct (obj_get t k); reflexivity.
Qed.

Lemma obj_get_assign_nil (o : obj) (k : string) :
  NoDup (map fst o) -> obj_get (assign [] o) k = obj_get o k.
Proof.
  intros H. rewrite obj_get_assign, obj_get_rev by exact H. destruct (obj_get o k); reflexivity.
Qed.

Lemma NoDup_nil_keys : NoDup (map fst ([] : obj)).
Proof. constructor. Qed.

Lemma contents_NoDup (s : SettingsStore) :
  NoDup (map fst (defaultSettings s)) -> NoDup (map fst (contents (loadSettings s) s)).
Proof.
  intros H. unfold loadSettings.
  destruct (settingsFile s) as [[u|]|]; simpl; auto.
  apply NoDup_assign, NoDup_assign, NoDup_nil_keys.
Qed.

Lemma getSetting_spec (k : string) (s : SettingsStore) :
  NoDup (map fst (defaultSettings s)) ->
  getSetting k s =
  match settingsFile s with
  | Some (Some u) =>
      match obj_get (rev (spreadable u)) k with
      | Some v => Some v
      | None => obj_get (defaultSettings s) k
      end
  | _ => obj_get (defaultSettings s) k
  end.
Proof.
  intros H. unfold getSetting, loadSettings.
  destruct (settingsFile s) as [[u|]|]; simpl; auto.
  rewrite obj_get_assign, obj_get_assign_nil by exact H. reflexivity.
Qed.

Lemma saveSettings_get (settings : obj) (k : string) (s : SettingsStore) :
  NoDup (map fst (defaultSettings s)) ->
  getSetting k (saveSettings settings s) =
  if settingsWritable s then
    match obj_get (rev settings) k with Some v => Some v | None => getSetting k s end
  else getSetting k s.
Proof.
  intros H. unfold saveSettings. destruct (settingsWritable s); [|reflexivity].
  set (current := contents (loadSettings s) s).
  assert (Hc : NoDup (map fst current)) by (apply contents_NoDup, H).
  assert (Hn : NoDup (map fst (assign (assign [] current) settings)))
    by (apply NoDup_assign, NoDup_assign, NoDup_nil_keys).
  rewrite getSetting_spec by exact H. cbn [settingsFile with_settings_file defaultSettings spreadable].
  rewrite obj_get_rev by exact Hn.
  rewrite obj_get_assign, obj_get_assign_nil by exact Hc.
  destruct (obj_get (rev settings) k) as [v|]; [reflexivity|].
  unfold getSetting. fold current.
  destruct (obj_get current k) as [v|] eqn:Ec; [reflexivity|].
  subst current. unfold loadSettings in Ec |- *.
  destruct (settingsFile s) as [[u|]|]; simpl in Ec |- *; auto.
  rewrite obj_get_assign, obj_get_assign_nil in Ec by exact H.
  destruct (obj_get (rev (spreadable u)) k); [discriminate | exact Ec].
Qed.

Lemma loadSettings_with_defaults (d : obj) (s : SettingsStore) :
  loadSettings s = TheDefaults -> loadSettings (with_defaults d s) = TheDefaults.
Proof. unfold loadSettings. cbn. destruct (settingsFile s) as [[u|]|]; congruence. Qed.

Lemma setSetting_get (k : string) (v : Json) (s : SettingsStore) :
  settingsWritable s = true -> NoDup (map fst (defaultSettings s)) ->
  getSetting k (setSetting k v s) = Some v /\
  (forall k', k' <> k -> getSetting k' (setSetting k v s) = getSetting k' s).
Proof.
  intros Hw H. unfold setSetting. destruct (loadSettings s) as [|o] eqn:L.
  - set (s' := with_defaults (obj_set k v (defaultSettings s)) s).
    assert (H' : NoDup (map fst (defaultSettings s'))) by (apply NoDup_set, H).
    assert (Hg : forall k', getSetting k' s' = obj_get (defaultSettings s') k').
    { intros k'. unfold getSetting. subst s'. rewrite loadSettings_with_defaults by exact L. reflexivity. }
    split; [|intros k' Hk]; rewrite saveSettings_get by exact H';
      change (settingsWritable s') with (settingsWritable s); rewrite Hw;
      rewrite obj_get_rev by exact H'.
    + subst s'. cbn [defaultSettings with_defaults]. rewrite obj_get_set, String.eqb_refl. reflexivity.
    + rewrite Hg.
      unfold getSetting. rewrite L. cbn [contents].
      subst s'. cbn [defaultSettings with_defaults]. rewrite obj_get_set.
      rewrite (proj2 (String.eqb_neq k k')) by congruence.
      destruct (obj_get (defaultSettings s) k'); reflexivity.
  - assert (Ho : NoDup (map fst o)).
    { change o with (contents (Fresh o) s). rewrite <- L. apply contents_NoDup, H. }
    split; [|intros k' Hk]; rewrite saveSettings_get by exact H; rewrite Hw;
      rewrite obj_get_rev by (apply NoDup_set, Ho).
    + rewrite obj_get_set, String.eqb_refl. reflexivity.
    + rewrite obj_get_set.
      rewrite (proj2 (String.eqb_neq k k')) by congruence.
      unfold getSetting. rewrite L. cbn [contents].
      destruct (obj_get o k'); reflexivity.
Qed.

(** X14: the settings the app reads are the defaults overlaid with the file:
    a key takes the last value the parsed file gives it and otherwise the
    default value, so every default key always has a value; a missing or
    unreadable file gives the defaults (keys of the defaults are distinct, as
    in a JavaScript object). *)
Theorem getSetting_merges_file (k : string) (s : SettingsStore) :
  NoDup (map fst (defaultSettings s)) ->
  getSetting k s =
  match settingsFile s with
  | Some (Some u) =>
      match obj_get (rev (spreadable u)) k with
      | Some v => Some v
      | None => obj_get (defaultSettings s) k
      end
  | _ => obj_get (defaultSettings s) k
  end.
Proof. exact (getSetting_spec k s). Qed.

Lemma NoDup_defaultSettings0 : NoDup (map fst defaultSettings0).
Proof.
  cbn. repeat (apply NoDup_cons; [simpl; intuition discriminate|]).
  apply NoDup_nil.
Qed.

Lemma getSetting_merges_file_witness :
  let s := mkSettingsStore (Some (Some (JObj [("maxHistoryItems", JNum 10)]))) true
                           defaultSettings0 false in
  getSetting "maxHistoryItems" s = Some (JNum 10) /\ getSetting "showTrayIcon" s = Some (JBool true).
Proof.
  intros s. split.
  - rewrite (getSetting_merges_file "maxHistoryItems" s NoDup_defaultSettings0). reflexivity.
  - rewrite (getSetting_merges_file "showTrayIcon" s NoDup_defaultSettings0). reflexivity.
Defined.

(** X15: [saveSettings] merges: when the file can be written, afterwards each
    key passed takes its (last) passed value and every other key reads as it
    did before; when it cannot, nothing changes. *)
Theorem saveSettings_merges (settings : obj) (k : string) (s : SettingsStore) :
  NoDup (map fst (defaultSettings s)) ->
  getSetting k (saveSettings settings s) =
  if settingsWritable s then
    match obj_get (rev settings) k with Some v => Some v | None => getSetting k s end
  else getSetting k s.
Proof. exact (saveSettings_get settings k s). Qed.

Lemma saveSettings_merges_witness :
  let s := mkSettingsStore None true defaultSettings0 false in
  getSetting "showInDock" (saveSettings [("showInDock", JBool true)] s) = Some (JBool true) /\
  getSetting "shortcut" (saveSettings [("showInDock", JBool true)] s) =
    Some (JStr "CommandOrControl+Shift+V").
Proof.
  intros s. split.
  - rewrite (saveSettings_merges _ "showInDock" s NoDup_defaultSettings0). reflexivity.
  - rewrite (saveSettings_merges _ "shortcut" s NoDup_defaultSettings0). reflexivity.
Defined.

(** X16: when the settings file can be written, [getSetting key] after
    [setSetting key value] gives [value], and every other key reads as
    before. *)
Theorem setSetting_getSetting (k : string) (v : Json) (s : SettingsStore) :
  settingsWritable s = true -> NoDup (map fst (defaultSettings s)) ->
  getSetting k (setSetting k v s) = Some v /\
  (forall k', k' <> k -> getSetting k' (setSetting k v s) = getSetting k' s).
Proof. exact (setSetting_get k v s). Qed.

Lemma setSetting_getSetting_witness :
  let s := mkSettingsStore (Some None) true defaultSettings0 false in
  getSetting "maxHistoryItems" (setSetting "maxHistoryItems" (JNum 100) s) = Some (JNum 100).
Proof.
  intros s.
  exact (proj1 (setSetting_getSetting "maxHistoryItems" (JNum 100) s
                  ltac:(reflexivity) NoDup_defaultSettings0)).
Defined.

(** X17: when the settings file is missing or unreadable, [loadSettings]
    returns the module's default object itself and [setSetting] writes into
    it: the default values change for the rest of the process, so the value
    set is read back whenever the file is missing or unreadable again, even if
    writing the file failed.  With a readable file the defaults are left
    alone. *)
Theorem setSetting_mutates_defaults (k : string) (v : Json) (s : SettingsStore) :
  defaultSettings (setSetting k v s) =
    match settingsFile s with
    | Some (Some _) => defaultSettings s
    | _ => obj_set k v (defaultSettings s)
    end /\
  (forall f, settingsFile s = None \/ settingsFile s = Some None ->
             f = None \/ f = Some None ->
             getSetting k (with_settings_file f (setSetting k v s)) = Some v).
Proof.
  assert (Hd : forall o s', defaultSettings (saveSettings o s') = defaultSettings s').
  { intros o s'. unfold saveSettings. destruct (settingsWritable s'); reflexivity. }
  split.
  - unfold setSetting, loadSettings.
    destruct (settingsFile s) as [[u|]|]; rewrite Hd; reflexivity.
  - intros f Hs Hf. unfold getSetting, loadSettings.
    cbn [settingsFile with_settings_file].
    assert (E : defaultSettings (setSetting k v s) = obj_set k v (defaultSettings s)).
    { unfold setSetting, loadSettings.
      destruct Hs as [-> | ->]; rewrite Hd; reflexivity. }
    destruct Hf as [-> | ->]; cbn [contents defaultSettings with_settings_file];
      rewrite E, obj_get_set, String.eqb_refl; reflexivity.
Qed.

(** X18: [setAutoLaunch enable] does nothing when
    [app.setLoginItemSettings] throws; otherwise the login item is set to
    [enable] and, when the settings file can be written, the setting
    [launchAtStartup] then reads [enable]. *)
Theorem setAutoLaunch_spec (enable : bool) (s : SettingsStore) :
  setAutoLaunch enable false s = s /\
  openAtLogin (setAutoLaunch enable true s) = enable /\
  (settingsWritable s = true -> NoDup (map fst (defaultSettings s)) ->
   getSetting "launchAtStartup" (setAutoLaunch enable true s) = Some (JBool enable)).
Proof.
  split; [reflexivity|]. split.
  - assert (Hs : forall o s', openAtLogin (saveSettings o s') = openAtLogin s').
    { intros o s'. unfold saveSettings. destruct (settingsWritable s'); reflexivity. }
    unfold setAutoLaunch, setSetting.
    destruct (loadSettings (with_login enable s)); rewrite Hs; reflexivity.
  - intros Hw H. unfold setAutoLaunch.
    exact (proj1 (setSetting_get _ _ (with_login enable s) Hw H)).
Qed.

(** ** The start-up GPU decision *)

Lemma digit_head_digits (f : nat) (n : N) (c : ascii) (t : string) :
  (exists d, (d < 10)%N /\ c = ascii_of_N (48 + d)) ->
  exists c' t', digits f n (String c t) = String c' t' /\
                exists d, (d < 10)%N /\ c' = ascii_of_N (48 + d).
Proof.
  revert n c t. induction f as [|f IH]; intros n c t Hc; simpl; [eauto|].
  destruct (N.eqb (N.div n 10) 0).
  - do 2 eexists. split; [reflexivity|]. exists (N.modulo n 10). split; [apply N.mod_lt; lia | reflexivity].
  - apply IH. exists (N.modulo n 10). split; [apply N.mod_lt; lia | reflexivity].
Qed.

Lemma toString_nat_head (n : nat) :
  exists c t, toString (Z.of_nat n) = String c t /\
              exists d, (d < 10)%N /\ c = ascii_of_N (48 + d).
Proof.
  destruct n as [|n].
  - exists "0"%char, EmptyString. split; [reflexivity|]. exists 0%N. split; [lia | reflexivity].
  - cbn [Z.of_nat toString]. set (p := Pos.of_succ_nat n). cbn [digits].
    destruct (N.eqb (N.div (Npos p) 10) 0).
    + do 2 eexists. split; [reflexivity|]. exists (N.modulo (Npos p) 10).
      split; [apply N.mod_lt; lia | reflexivity].
    + apply digit_head_digits. exists (N.modulo (Npos p) 10).
      split; [apply N.mod_lt; lia | reflexivity].
Qed.

Lemma indexed_disableGPU {A} (g : A -> Json) (n : nat) (l : list A) :
  obj_get (rev (indexed g n l)) "disableGPU" = None.
Proof.
  apply obj_get_notin. rewrite map_rev, <- in_rev.
  revert n. induction l as [|a t IH]; intros n; simpl; [tauto|].
  intros [E|Hi]; [|exact (IH _ Hi)].
  destruct (toString_nat_head n) as [c [t' [Ht [d [Hd Hc]]]]].
  rewrite Ht in E. injection E as E _. subst c.
  apply (f_equal N_of_ascii) in Hc.
  rewrite N_ascii_embedding in Hc by lia. change (N_of_ascii "d"%char) with 100%N in Hc. lia.
Qed.

(** X19: the GPU decision taken at start-up, before the settings module is
    used, agrees with the [disableGPU] setting the app reads later (from the
    initial defaults): acceleration is kept only when the setting reads
    [false], and a missing, unreadable or non-object file disables it. *)
Theorem disableGPUAtStart_agrees (s : SettingsStore) :
  defaultSettings s = defaultSettings0 ->
  disableGPUAtStart (settingsFile s) =
  match getSetting "disableGPU" s with Some (JBool false) => false | _ => true end.
Proof.
  intros Hd. rewrite getSetting_spec by (rewrite Hd; apply NoDup_defaultSettings0).
  rewrite Hd. unfold disableGPUAtStart, initialSettings.
  destruct (settingsFile s) as [[u|]|]; [|reflexivity|reflexivity].
  destruct u; cbn [json_prop spreadable]; try reflexivity.
  - rewrite indexed_disableGPU. reflexivity.
  - rewrite indexed_disableGPU. reflexivity.
  - rewrite obj_get_assign. destruct (obj_get (rev o) "disableGPU"); reflexivity.
Qed.

Lemma disableGPUAtStart_agrees_witness :
  let s := mkSettingsStore (Some (Some (JObj [("disableGPU", JBool false)]))) true
                           defaultSettings0 false in
  disableGPUAtStart (settingsFile s) = false /\ getSetting "disableGPU" s = Some (JBool false).
Proof.
  intros s. split; [|reflexivity].
  rewrite (disableGPUAtStart_agrees s eq_refl). reflexivity.
Defined.

(** ** The virtual list of the history panel *)

Lemma floor_scroll_le (scrollTop : Q) (i : Z) :
  (scrollTop < inject_Z (ITEM_HEIGHT * (i + 1)))%Q ->
  Qfloor (scrollTop / inject_Z ITEM_HEIGHT) <= i.
Proof.
  intros H.
  assert (H1 : (scrollTop / inject_Z ITEM_HEIGHT < inject_Z (i + 1))%Q).
  { apply Qlt_shift_div_r; [reflexivity|].
    rewrite inject_Z_mult in H. unfold ITEM_HEIGHT in *. rewrite Qmult_comm. exact H. }
  assert (H2 := Qfloor_le (scrollTop / inject_Z ITEM_HEIGHT)).
  assert (H3 : (inject_Z (Qfloor (scrollTop / inject_Z ITEM_HEIGHT)) < inject_Z (i + 1))%Q)
    by (eapply Qle_lt_trans; eassumption).
  rewrite <- Zlt_Qlt in H3. lia.
Qed.

Lemma ceiling_view_gt (scrollTop : Q) (containerHeight i : Z) :
  (inject_Z (ITEM_HEIGHT * i) < scrollTop + inject_Z containerHeight)%Q ->
  i < Qceiling ((scrollTop + inject_Z containerHeight) / inject_Z ITEM_HEIGHT).
Proof.
  intros H.
  assert (H1 : (inject_Z i < (scrollTop + inject_Z containerHeight) / inject_Z ITEM_HEIGHT)%Q).
  { apply Qlt_shift_div_l; [reflexivity|].
    rewrite inject_Z_mult in H. rewrite Qmult_comm. exact H. }
  assert (H2 := Qle_ceiling ((scrollTop + inject_Z containerHeight) / inject_Z ITEM_HEIGHT)).
  assert (H3 : (inject_Z i < inject_Z (Qceiling ((scrollTop + inject_Z containerHeight)
                                                 / inject_Z ITEM_HEIGHT)))%Q)
    by (eapply Qlt_le_trans; eassumption).
  rewrite <- Zlt_Qlt in H3. exact H3.
Qed.

Lemma slice_in_range {A} (l : list A) (s e : Z) :
  0 <= s <= e -> e <= Z.of_nat (length l) ->
  slice l s e = firstn (Z.to_nat (e - s)) (skipn (Z.to_nat s) l).
Proof.
  intros H1 H2. unfold slice, relative_index.
  rewrite (proj2 (Z.ltb_ge s 0)) by lia. rewrite (proj2 (Z.ltb_ge e 0)) by lia.
  rewrite Z.min_l by lia. rewrite Z.min_l by lia. reflexivity.
Qed.

(** X20: every entry of the history whose 150-pixel band overlaps the
    visible part of the container is inside the computed range, and the
    slice that is rendered holds it at its offset from the start of the
    range (so it is drawn at its own position). *)
Theorem visible_range_covers_viewport {A} (l : list A) (scrollTop : Q) (containerHeight : Z)
    (i : nat) :
  (i < length l)%nat ->
  (inject_Z (ITEM_HEIGHT * Z.of_nat i) < scrollTop + inject_Z containerHeight)%Q ->
  (scrollTop < inject_Z (ITEM_HEIGHT * (Z.of_nat i + 1)))%Q ->
  let r := calculateVisibleRange scrollTop containerHeight (length l) in
  fst r <= Z.of_nat i < snd r /\
  nth_error (visibleItems l scrollTop containerHeight) (Z.to_nat (Z.of_nat i - fst r)) =
  nth_error l i.
Proof.
  intros Hi Hlo Hhi r.
  assert (HS := floor_scroll_le scrollTop (Z.of_nat i) Hhi).
  assert (HE := ceiling_view_gt scrollTop containerHeight (Z.of_nat i) Hlo).
  assert (Hr : fst r <= Z.of_nat i < snd r /\ 0 <= fst r /\ snd r <= Z.of_nat (length l)).
  { subst r. unfold calculateVisibleRange. cbn [fst snd]. unfold BUFFER_SIZE. lia. }
  split; [tauto|].
  unfold visibleItems. fold r. rewrite slice_in_range by lia.
  rewrite nth_error_firstn.
  rewrite (proj2 (Nat.ltb_lt _ _)) by lia.
  rewrite nth_error_skipn. f_equal. lia.
Qed.

Lemma visible_range_covers_viewport_witness :
  let l := [1; 2; 3; 4; 5; 6; 7; 8; 9; 10; 11; 12; 13; 14; 15; 16; 17; 18; 19; 20] in
  nth_error (visibleItems l (1500 # 1) 600) 5 = Some 11.
Proof.
  intros l.
  destruct (visible_range_covers_viewport l (1500 # 1) 600 10
              ltac:(simpl; lia) ltac:(reflexivity) ltac:(reflexivity)) as [_ H].
  exact H.
Defined.

(** X21: however long the history, the panel renders fewer than
    [containerHeight / 150 + 12] entries (for a scroll offset and a height
    that are not negative). *)
Theorem visibleItems_bounded {A} (l : list A) (scrollTop : Q) (containerHeight : Z) :
  (0 <= scrollTop)%Q -> 0 <= containerHeight ->
  (inject_Z (Z.of_nat (length (visibleItems l scrollTop containerHeight)))
   < inject_Z containerHeight / inject_Z ITEM_HEIGHT + 12)%Q.
Proof.
  intros Hs Hh.
  set (S := Qfloor (scrollTop / inject_Z ITEM_HEIGHT)).
  set (E := Qceiling ((scrollTop + inject_Z containerHeight) / inject_Z ITEM_HEIGHT)).
  assert (HS0 : 0 <= S).
  { subst S. rewrite <- (Qfloor_Z 0). apply Qfloor_resp_le.
    apply Qle_shift_div_l; [reflexivity|]. rewrite Qmult_0_l. exact Hs. }
  assert (HE0 : 0 <= E).
  { subst E. assert (H := Qle_ceiling ((scrollTop + inject_Z containerHeight)
                                        / inject_Z ITEM_HEIGHT)).
    assert (H0 : (0 <= (scrollTop + inject_Z containerHeight) / inject_Z ITEM_HEIGHT)%Q).
    { apply Qle_shift_div_l; [reflexivity|]. rewrite Qmult_0_l.
      assert (Hq : (0 <= inject_Z containerHeight)%Q) by (change 0%Q with (inject_Z 0); rewrite <- Zle_Qle; exact Hh).
      lra. }
    rewrite Zle_Qle. eapply Qle_trans; eassumption. }
  assert (Hd : ((scrollTop + inject_Z containerHeight) / inject_Z ITEM_HEIGHT ==
                scrollTop / inject_Z ITEM_HEIGHT + inject_Z containerHeight / inject_Z ITEM_HEIGHT)%Q)
    by (unfold Qdiv; ring).
  assert (Hh150 : (0 <= inject_Z containerHeight / inject_Z ITEM_HEIGHT)%Q).
  { apply Qle_shift_div_l; [reflexivity|]. rewrite Qmult_0_l.
    change 0%Q with (inject_Z 0). rewrite <- Zle_Qle. exact Hh. }
  assert (HSE : S <= E).
  { rewrite Zle_Qle.
    assert (H1 := Qfloor_le (scrollTop / inject_Z ITEM_HEIGHT)).
    assert (H2 := Qle_ceiling ((scrollTop + inject_Z containerHeight) / inject_Z ITEM_HEIGHT)).
    fold S in H1. fold E in H2. rewrite Hd in H2. lra. }
  assert (HES : (inject_Z E - inject_Z S < inject_Z containerHeight / inject_Z ITEM_HEIGHT + 2)%Q).
  { assert (H1 := Qceiling_lt ((scrollTop + inject_Z containerHeight) / inject_Z ITEM_HEIGHT)).
    assert (H2 := Qlt_floor (scrollTop / inject_Z ITEM_HEIGHT)).
    fold E in H1. fold S in H2.
    rewrite inject_Z_plus in H2. unfold Z.sub in H1. rewrite inject_Z_plus, inject_Z_opp in H1.
    rewrite Hd in H1. change (inject_Z 1) with 1%Q in H1, H2. lra. }
  assert (Hlen : Z.of_nat (length (visibleItems l scrollTop containerHeight)) <= E + 5 - (S - 5)).
  { unfold visibleItems, calculateVisibleRange. fold S E. cbn [fst snd].
    unfold BUFFER_SIZE.
    set (n := Z.of_nat (length l)).
    assert (Hn : 0 <= n) by (subst n; lia).
    unfold slice. fold n. unfold relative_index.
    rewrite (proj2 (Z.ltb_ge (Z.max 0 (S - 5)) 0)) by lia.
    rewrite (proj2 (Z.ltb_ge (Z.min n (E + 5)) 0)) by lia.
    rewrite length_firstn. lia. }
  rewrite Zle_Qle in Hlen. unfold Z.sub in Hlen.
  repeat rewrite ?inject_Z_plus, ?inject_Z_opp in Hlen.
  change (inject_Z 5) with 5%Q in Hlen. lra.
Qed.

Lemma visibleItems_bounded_witness :
  (inject_Z (Z.of_nat (length (visibleItems (repeat 0%nat 1000) (30000 # 1) 900)))
   < inject_Z 900 / inject_Z ITEM_HEIGHT + 12)%Q.
Proof. apply visibleItems_bounded; [unfold Qle; simpl; lia | lia]. Defined.

(** ** Log filtering *)

Lemma priority_minLevel (l : LogLevel) :
  exists q, logLevelPriority (LogLevel_value l) = Some q /\ 0 <= q <= 3.
Proof. destruct l; eexists; split; try reflexivity; lia. Qed.

(** X22: whatever the per-category levels, a message of level [error] is
    always kept, and so is a message whose level is not one of the four
    known levels. *)
Theorem logFilter_keeps_error_and_unknown (logFilters : list (string * LogLevel))
    (category : option string) :
  logFilter logFilters "error" category = true /\
  (forall level, logLevelPriority level = None -> logFilter logFilters level category = true).
Proof.
  unfold logFilter.
  set (m := match lookup_level logFilters _ with Some l => l | None => INFO end).
  destruct (priority_minLevel m) as [q [Hq Hb]]. rewrite Hq. split.
  - cbn. apply negb_true_iff, Z.ltb_ge. lia.
  - intros level H. rewrite H. reflexivity.
Qed.

(** X23: the filter is monotone in the level: if a message is kept, a message
    of the same category with a higher known level is kept too. *)
Theorem logFilter_monotone (logFilters : list (string * LogLevel)) (category : option string)
    (a b : string) (p q : Z) :
  logLevelPriority a = Some p -> logLevelPriority b = Some q -> p <= q ->
  logFilter logFilters a category = true -> logFilter logFilters b category = true.
Proof.
  intros Ha Hb Hpq. unfold logFilter. rewrite Ha, Hb.
  set (m := match lookup_level logFilters _ with Some l => l | None => INFO end).
  destruct (priority_minLevel m) as [r [Hr _]]. rewrite Hr.
  rewrite !negb_true_iff, !Z.ltb_ge. lia.
Qed.

Lemma logFilter_monotone_witness :
  logFilter logFilters0 "info" (Some "clipboard") = true /\
  logFilter logFilters0 "warn" (Some "clipboard") = true.
Proof.
  split; [reflexivity|].
  exact (logFilter_monotone logFilters0 (Some "clipboard") "info" "warn" 1 2
           ltac:(reflexivity) ltac:(reflexivity) ltac:(lia) ltac:(reflexivity)).
Defined.

Lemma lookup_set_level (c : string) (l : LogLevel) (f : list (string * LogLevel)) (c' : string) :
  lookup_level (set_level c l f) c' =
  match lookup_level f c' with
  | Some old => Some (if String.eqb c' c then l else old)
  | None => None
  end.
Proof.
  induction f as [|[c0 l0] t IH]; simpl; [reflexivity|].
  destruct (String.eqb c0 c) eqn:E1.
  - apply String.eqb_eq in E1. subst c0. simpl.
    destruct (String.eqb c c') eqn:E2.
    + apply String.eqb_eq in E2. subst c'. rewrite String.eqb_refl. reflexivity.
    + destruct (lookup_level t c'); [|reflexivity].
      rewrite String.eqb_sym, E2. reflexivity.
  - simpl. destruct (String.eqb c0 c') eqn:E2; [|exact IH].
    apply String.eqb_eq in E2. subst c'. rewrite E1. reflexivity.
Qed.

(** X24: [setCategoryLogLevel category level] changes the level of
    [category] only, and only when that category already has a level; an
    unknown category is not added. *)
Theorem setCategoryLogLevel_lookup (category : string) (level : LogLevel)
    (logFilters : list (string * LogLevel)) (c' : string) :
  lookup_level (setCategoryLogLevel category level logFilters) c' =
  match lookup_level logFilters c' with
  | Some old => Some (if String.eqb c' category then level else old)
  | None => None
  end.
Proof.
  unfold setCategoryLogLevel.
  destruct (lookup_level logFilters category) eqn:E; [apply lookup_set_level|].
  destruct (lookup_level logFilters c') eqn:E'; [|reflexivity].
  destruct (String.eqb c' category) eqn:Ec; [|reflexivity].
  apply String.eqb_eq in Ec. subst. congruence.
Qed.

(** ** Registration of the global shortcut *)

(** X25: after [applySettings], an accelerator is registered only if
    [globalShortcut.register] returned [true] for it; the in-memory
    [settings.shortcut] either stays as it was or becomes the platform default
    exactly when that default is the one registered; the failure notice is
    sent only after the first registration returned [false], and only when
    there is a window. *)
Theorem applySettings_outcome (register : string -> option bool) (p : Platform)
    (hasWindow : bool) (shortcut : string) :
  let o := applySettings register p hasWindow shortcut in
  match registeredShortcut o with Some a => register a = Some true | None => True end /\
  (settingsShortcut o = shortcut \/
   (registeredShortcut o = Some (defaultShortcutFor p) /\
    settingsShortcut o = defaultShortcutFor p)) /\
  (failureNotified o = true ->
   hasWindow = true /\
   register (replace_first "CommandOrControl"
               (match p with darwin => "Command" | other_platform => "Control" end) shortcut)
   = Some false).
Proof.
  cbv zeta. unfold applySettings, tryRegisterDefaultShortcut.
  set (conv := replace_first _ _ shortcut).
  destruct (register conv) as [[|]|] eqn:E; cbn.
  - rewrite E. split; [reflexivity|]. split; [left; reflexivity | discriminate].
  - destruct (register (defaultShortcutFor p)) as [[|]|] eqn:D; cbn;
      (split; [try exact D; exact I|]); (split; [try (right; split; reflexivity); left; reflexivity|]);
      intros ->; split; reflexivity.
  - split; [exact I|]. split; [left; reflexivity | discriminate].
Qed.

(** X26: with the shortcut setting left at its default
    ["CommandOrControl+Shift+V"], the accelerator tried first is the platform
    default itself, so when its registration returns [false] the fallback
    tries the same accelerator again: nothing is registered, the setting is
    kept, and the notice is sent when there is a window. *)
Theorem default_shortcut_fallback_repeats (register : string -> option bool) (p : Platform)
    (hasWindow : bool) :
  register (defaultShortcutFor p) = Some false ->
  applySettings register p hasWindow "CommandOrControl+Shift+V" =
  mkShortcutOutcome None "CommandOrControl+Shift+V" hasWindow.
Proof.
  intros H. unfold applySettings, tryRegisterDefaultShortcut.
  destruct p; cbn in H |- *; rewrite H; reflexivity.
Qed.

Lemma default_shortcut_fallback_repeats_witness :
  applySettings (fun _ => Some false) darwin true "CommandOrControl+Shift+V" =
  mkShortcutOutcome None "CommandOrControl+Shift+V" true.
Proof.
  exact (default_shortcut_fallback_repeats (fun _ => Some false) darwin true eq_refl).
Defined.
